(** * copyright-inserter: a shallow embedding of [src/copyrightinserter.ts]

    The TypeScript class [CopyrightInserter] is embedded function by function.
    JavaScript strings are sequences of UTF-16 code units; a code unit is a
    number ([N]) and a string is a list of them, so that the character classes
    of the language (white space, line terminators) are the real ones.

    What the class obtains from its host (the editor, Node's [path], [fs] and
    [require], the JSON parser, the regular expressions of installed language
    definitions, the clock) is gathered in the record [Host]; the mutable
    state of one editor session (the cache of language configurations and the
    active document) is the record [World]. *)

From Stdlib Require Import Ascii String DecimalString DecimalPos.
From stdpp Require Import gmap list.

Local Open Scope N_scope.

(** ** Strings *)

Definition jschar := N.
Definition jsstring := list jschar.

(** A literal: the code units of an ASCII string. *)
Definition js (s : string) : jsstring :=
  List.map N_of_ascii (list_ascii_of_string s).
Arguments js s%_string.
Arguments js : simpl never.

Definition LF : jschar := 10.
Definition CR : jschar := 13.
(** The double quote, which license texts contain. *)
Definition DQ : jschar := 34.

(** ECMAScript [LineTerminator]: LF, CR, LS, PS. *)
Definition is_line_terminator (c : jschar) : bool :=
  (c =? 10) || (c =? 13) || (c =? 8232) || (c =? 8233).

(** ECMAScript [WhiteSpace] and [LineTerminator], the set that
    [trimStart] and [trimRight] remove. *)
Definition is_white (c : jschar) : bool :=
  (c =? 9) || (c =? 11) || (c =? 12) || (c =? 32) || (c =? 160)
  || (c =? 5760) || ((8192 <=? c) && (c <=? 8202)) || (c =? 8239)
  || (c =? 8287) || (c =? 12288) || (c =? 65279)
  || is_line_terminator c.

(** JavaScript truthiness of a string: it is not empty. *)
Definition truthy (s : jsstring) : bool :=
  match s with [] => false | _ :: _ => true end.

Definition jseqb (a b : jsstring) : bool := bool_decide (a = b).

(** [s.startsWith(p)] *)
Fixpoint startsWith (s p : jsstring) {struct p} : bool :=
  match p, s with
  | [], _ => true
  | _ :: _, [] => false
  | x :: p', c :: s' => (c =? x) && startsWith s' p'
  end.

(** [s.trimRight()] *)
Fixpoint trimRight (s : jsstring) : jsstring :=
  match s with
  | [] => []
  | c :: r =>
      match trimRight r with
      | [] => if is_white c then [] else [c]
      | r' => c :: r'
      end
  end.

(** [s.trimStart()] *)
Fixpoint trimStart (s : jsstring) : jsstring :=
  match s with
  | [] => []
  | c :: r => if is_white c then trimStart r else s
  end.

(** [s.trim()], used only to relate [trimStart] to the words of the
    specification. *)
Definition trim (s : jsstring) : jsstring := trimRight (trimStart s).

(** [s.split(sep)] for a separator of one code unit: never empty. *)
Fixpoint split (sep : jschar) (s : jsstring) : list jsstring :=
  match s with
  | [] => [[]]
  | c :: r =>
      if c =? sep then [] :: split sep r
      else match split sep r with
           | l :: ls => (c :: l) :: ls
           | [] => [[c]]
           end
  end.

(** [lines.join(sep)] *)
Fixpoint join (sep : jschar) (ls : list jsstring) : jsstring :=
  match ls with
  | [] => []
  | [l] => l
  | l :: ls' => l ++ sep :: join sep ls'
  end.

(** [String(n)] for a non-negative integer. *)
Definition String_of_number (n : N) : jsstring :=
  js (NilEmpty.string_of_uint (N.to_uint n)).

(** [String(v)] for a value that is a string or [undefined]. *)
Definition String_of (v : option jsstring) : jsstring :=
  match v with
  | Some s => s
  | None => js "undefined"
  end.

(** [v || d] for a value that is a string or [undefined]. *)
Definition or_default (v : option jsstring) (d : jsstring) : jsstring :=
  match v with
  | Some s => if truthy s then s else d
  | None => d
  end.

(** ** Exceptions *)

Inductive js_error :=
| SyntaxError
| TypeError
| OtherError (code : N).

Definition is_SyntaxError (e : js_error) : bool :=
  match e with SyntaxError => true | _ => false end.

Inductive result (A : Type) :=
| Ok (a : A)
| Throw (e : js_error).
Arguments Ok {A} a.
Arguments Throw {A} e.

Definition bind {A B} (r : result A) (k : A -> result B) : result B :=
  match r with
  | Ok a => k a
  | Throw e => Throw e
  end.

Notation "'let!' x ':=' r 'in' k" := (bind r (fun x => k))
  (at level 10, x name, r at level 100, k at level 200).

(** ** The license templates ([CopyrightMap]) *)

Definition text_of_lines (ls : list jsstring) : jsstring := join LF ls.

Definition apache (holder year : jsstring) : jsstring :=
  js "Copyright " ++ year ++ js " " ++ holder ++ LF :: text_of_lines [
    [];
    js "Licensed under the Apache License, Version 2.0 (the "
      ++ DQ :: js "License" ++ DQ :: js ");";
    js "you may not use this file except in compliance with the License.";
    js "You may obtain a copy of the License at";
    [];
    js "     https://www.apache.org/licenses/LICENSE-2.0";
    [];
    js "Unless required by applicable law or agreed to in writing, software";
    js "distributed under the License is distributed on an "
      ++ DQ :: js "AS IS" ++ DQ :: js " BASIS,";
    js "WITHOUT WARRANTIES OR CONDITIONS OF ANY KIND, either express or implied.";
    js "See the License for the specific language governing permissions and";
    js "limitations under the License."
  ].

Definition bsd (holder year : jsstring) : jsstring :=
  js "Copyright (c) " ++ year ++ js " " ++ holder
    ++ js " All rights reserved." ++ LF :: text_of_lines [
    js "Use of this source code is governed by a BSD-style";
    js "license that can be found in the LICENSE file."
  ].

Definition mit (holder year : jsstring) : jsstring :=
  js "Copyright (c) " ++ year ++ js " " ++ holder ++ LF :: text_of_lines [
    [];
    js "Permission is hereby granted, free of charge, to any person obtaining a copy of";
    js "this software and associated documentation files (the "
      ++ DQ :: js "Software" ++ DQ :: js "), to deal in";
    js "the Software without restriction, including without limitation the rights to";
    js "use, copy, modify, merge, publish, distribute, sublicense, and/or sell copies of";
    js "the Software, and to permit persons to whom the Software is furnished to do so,";
    js "subject to the following conditions:";
    [];
    js "The above copyright notice and this permission notice shall be included in all";
    js "copies or substantial portions of the Software.";
    [];
    js "THE SOFTWARE IS PROVIDED " ++ DQ :: js "AS IS" ++ DQ
      :: js ", WITHOUT WARRANTY OF ANY KIND, EXPRESS OR";
    js "IMPLIED, INCLUDING BUT NOT LIMITED TO THE WARRANTIES OF MERCHANTABILITY, FITNESS";
    js "FOR A PARTICULAR PURPOSE AND NONINFRINGEMENT. IN NO EVENT SHALL THE AUTHORS OR";
    js "COPYRIGHT HOLDERS BE LIABLE FOR ANY CLAIM, DAMAGES OR OTHER LIABILITY, WHETHER";
    js "IN AN ACTION OF CONTRACT, TORT OR OTHERWISE, ARISING FROM, OUT OF OR IN";
    js "CONNECTION WITH THE SOFTWARE OR THE USE OR OTHER DEALINGS IN THE SOFTWARE."
  ].

Definition gpl3 (holder year : jsstring) : jsstring :=
  js "Copyright (c) " ++ year ++ js " " ++ holder ++ LF :: text_of_lines [
    [];
    js "This program is free software: you can redistribute it and/or modify";
    js "it under the terms of the GNU General Public License as published by";
    js "the Free Software Foundation, either version 3 of the License, or";
    js "(at your option) any later version.";
    [];
    js "This program is distributed in the hope that it will be useful,";
    js "but WITHOUT ANY WARRANTY; without even the implied warranty of";
    js "MERCHANTABILITY or FITNESS FOR A PARTICULAR PURPOSE.  See the";
    js "GNU General Public License for more details.";
    [];
    js "You should have received a copy of the GNU General Public License";
    js "along with this program.  If not, see <https://www.gnu.org/licenses/>."
  ].

Definition LicenseTemplate := jsstring -> jsstring -> jsstring.

(** [new Map([['apache', ...], ['bsd', ...], ['mit', ...], ['gpl3', ...]])] *)
Definition CopyrightMap : gmap jsstring LicenseTemplate :=
  list_to_map [
    (js "apache", apache);
    (js "bsd", bsd);
    (js "mit", mit);
    (js "gpl3", gpl3)
  ].

(** ** Configuration of the extension *)

(** [class CopyrightData]: the field initialisers are the defaults, the
    constructor overwrites them with truthy arguments.  [fullYear] is
    [(new Date()).getFullYear()]. *)
Record CopyrightData := { holder : jsstring; year : jsstring }.

Definition new_CopyrightData (fullYear : N)
    (holder_arg : jsstring) (year_arg : option jsstring) : CopyrightData :=
  let this := {| holder := js "Google LLC";
                 year := String_of_number fullYear |} in
  let this :=
    if truthy holder_arg
    then {| holder := holder_arg; year := year this |} else this in
  let this :=
    match year_arg with
    | Some y => if truthy y then {| holder := holder this; year := y |} else this
    | None => this
    end in
  this.

Record ExtensionConfiguration := {
  license : jsstring;
  useLineComment : bool;
  data : CopyrightData
}.

(** The values [vscode.workspace.getConfiguration().get(key)] returns for
    the four keys of the extension; [None] is [undefined]. *)
Record ConfigView := {
  copyrightInserter_license : option jsstring;
  copyrightInserter_useLineComment : option bool;
  copyrightInserter_holder : option jsstring;
  copyrightInserter_year : option jsstring
}.

Definition getExtensionConfig (configView : ConfigView) (fullYear : N)
    : ExtensionConfiguration :=
  {| license := or_default (copyrightInserter_license configView) (js "apache");
     useLineComment :=
       match copyrightInserter_useLineComment configView with
       | Some b => b || false
       | None => false
       end;
     data := new_CopyrightData fullYear
       (String_of (copyrightInserter_holder configView))
       (Some (or_default (copyrightInserter_year configView)
                         (String_of_number fullYear))) |}.

(** ** Comment rules of a language ([vscode.CommentRule]) *)

Record CommentRule := {
  lineComment : option jsstring;
  blockComment : option (jsstring * jsstring)
}.

(** [vscode.LanguageConfiguration], of which only [comments] is read. *)
Record LanguageConfiguration := { comments : option CommentRule }.

(** ** The header formatter *)

Definition formatString (header first_line prefix last_line : jsstring)
    : jsstring :=
  let result := [] in
  let result :=
    if truthy first_line then result ++ first_line ++ [LF] else result in
  let result :=
    fold_left
      (fun result line =>
         let new_line := prefix ++ line in
         result ++ trimRight new_line ++ [LF])
      (split LF header) result in
  let result :=
    if truthy last_line then result ++ last_line ++ [LF] else result in
  result ++ [LF].

(** [c!.lineComment] as a condition: present and not empty. *)
Definition lineComment_token (c : CommentRule) : option jsstring :=
  match lineComment c with
  | Some l => if truthy l then Some l else None
  | None => None
  end.

(** Reading a property of [language.comments] throws when [comments] is
    [undefined]. *)
Definition formatHeader (template : LicenseTemplate) (data : CopyrightData)
    (language : LanguageConfiguration) (useLineComment : bool)
    : result jsstring :=
  let header := template (holder data) (year data) in
  match comments language with
  | None => Throw TypeError
  | Some c =>
      match (if useLineComment then None else blockComment c) with
      | Some (bc0, bc1) =>
          if jseqb bc0 (js "/*")
          then Ok (formatString header (bc0 ++ js "*") (js " * ") (js " " ++ bc1))
          else Ok (formatString header bc0 [] bc1)
      | None =>
          match lineComment_token c with
          | Some lc =>
              let prefix := lc ++ js " " in
              Ok (formatString header [] prefix [])
          | None => Ok (formatString header [] [] [])
          end
      end
  end.

(** ** Regular expressions

    [hasCopyright] builds its patterns from an escaped comment token, so the
    patterns it compiles lie in a small fragment of the pattern language:
    the assertion [^], literal code units, identity escapes of the escaped
    characters, the wildcard [.] and the quantifier [*] on one character.
    The fragment is parsed from the pattern source and matched by
    backtracking, under the flags [m], [i] and [s]. *)

Inductive single :=
| SChar (c : jschar)
| SDot.

Inductive item :=
| IBol
| IOne (a : single)
| IStar (a : single).

Record Flags := { multiline : bool; ignoreCase : bool; dotAll : bool }.

(** ECMAScript [SyntaxCharacter]: ^ $ \ . * + ? ( ) [ ] { } | *)
Definition is_syntax_char (c : jschar) : bool :=
  (c =? 94) || (c =? 36) || (c =? 92) || (c =? 46) || (c =? 42) || (c =? 43)
  || (c =? 63) || (c =? 40) || (c =? 41) || (c =? 91) || (c =? 93)
  || (c =? 123) || (c =? 125) || (c =? 124).

(** The class [[-\/\\^$*+?.()|[\]{}]] of [escapeStringForRegexp]: the syntax
    characters, [-] and [/]. *)
Definition is_escaped_char (c : jschar) : bool :=
  (c =? 45) || (c =? 47) || is_syntax_char c.

(** [s.replace(/[-\/\\^$*+?.()|[\]{}]/g, '\\$&')] *)
Definition escapeStringForRegexp (s : jsstring) : jsstring :=
  flat_map (fun c => if is_escaped_char c then [92; c] else [c]) s.

Definition emit (pending : option single) (rest : list item) : list item :=
  match pending with
  | Some a => IOne a :: rest
  | None => rest
  end.

(** The parser reads one code unit at a time; [pending] is the last atom,
    kept until it is known whether [*] follows it, and [escaped] says that
    the previous code unit was a backslash.  [None]: the pattern is outside
    the fragment. *)
Fixpoint parse_from (pending : option single) (escaped : bool)
    (p : jsstring) : option (list item) :=
  match p with
  | [] => if escaped then None else Some (emit pending [])
  | c :: r =>
      if escaped then
        if is_escaped_char c
        then emit pending <$> parse_from (Some (SChar c)) false r
        else None
      else if c =? 92 then parse_from pending true r
      else if c =? 42 then
        match pending with
        | Some a => cons (IStar a) <$> parse_from None false r
        | None => None
        end
      else if c =? 94 then
        (fun re => emit pending (IBol :: re)) <$> parse_from None false r
      else if c =? 46 then emit pending <$> parse_from (Some SDot) false r
      else if is_syntax_char c then None
      else emit pending <$> parse_from (Some (SChar c)) false r
  end.

Definition parse (source : jsstring) : option (list item) :=
  parse_from None false source.

Section Matcher.
(** [upper1 ch] is the upper case of [ch] when that is one code unit, and
    [ch] otherwise: the Unicode table of the host. *)
Variable upper1 : jschar -> jschar.
Variable flags : Flags.

(** ECMAScript [Canonicalize] without the [u] flag. *)
Definition Canonicalize (ch : jschar) : jschar :=
  if ignoreCase flags then
    let cu := upper1 ch in
    if (128 <=? ch) && (cu <? 128) then ch else cu
  else ch.

Definition single_matches (a : single) (c : jschar) : bool :=
  match a with
  | SChar p => Canonicalize c =? Canonicalize p
  | SDot => dotAll flags || negb (is_line_terminator c)
  end.

(** [^]: at the start of the input, or after a line terminator under
    [m]. [prev] is the code unit before the current position. *)
Definition at_bol (prev : option jschar) : bool :=
  match prev with
  | None => true
  | Some c => multiline flags && is_line_terminator c
  end.

Fixpoint match_here (re : list item) (prev : option jschar)
    (s : jsstring) {struct re} : bool :=
  match re with
  | [] => true
  | IBol :: re' => at_bol prev && match_here re' prev s
  | IOne a :: re' =>
      match s with
      | c :: s' => single_matches a c && match_here re' (Some c) s'
      | [] => false
      end
  | IStar a :: re' =>
      (fix star (prev : option jschar) (s : jsstring) {struct s} : bool :=
         match_here re' prev s
         || match s with
            | c :: s' => single_matches a c && star (Some c) s'
            | [] => false
            end) prev s
  end.

(** A match may start at any position. *)
Fixpoint search (re : list item) (prev : option jschar) (s : jsstring)
    : bool :=
  match_here re prev s
  || match s with
     | c :: s' => search re (Some c) s'
     | [] => false
     end.
End Matcher.

(** [new RegExp(source, flags).test(text)] for a pattern of the fragment. *)
Definition RegExp_test (upper1 : jschar -> jschar) (source : jsstring)
    (flags : Flags) (text : jsstring) : bool :=
  match parse source with
  | Some re => search upper1 flags re None text
  | None => false
  end.

(** ** The document ([vscode.TextDocument])

    The text of a document is one string in which lines end with LF. *)

Record TextDocument := {
  languageId : jsstring;
  fileName : jsstring;
  text : jsstring
}.

(** [doc.lineCount] *)
Definition lineCount (doc : TextDocument) : nat :=
  S (length (List.filter (fun c => c =? LF) (text doc))).

(** The text of [new vscode.Range(0, 0, n, 0)]: everything before line [n],
    the whole text when the document has no line [n]. *)
Fixpoint text_before_line (n : nat) (s : jsstring) {struct s} : jsstring :=
  match n, s with
  | O, _ => []
  | S _, [] => []
  | S m, c :: r => c :: text_before_line (if c =? LF then m else n) r
  end.

Definition getText (doc : TextDocument) (endLine : nat) : jsstring :=
  text_before_line endLine (text doc).

(** The edit [b.insert(new vscode.Position(line, 0), t)]: [t] goes in front
    of line [line]; a position after the last line is adjusted to the end of
    the document. *)
Fixpoint insert_at_line (line : nat) (t s : jsstring) {struct s} : jsstring :=
  match line, s with
  | O, _ => t ++ s
  | S _, [] => t
  | S m, c :: r => c :: insert_at_line (if c =? LF then m else line) t r
  end.

Definition insert (doc : TextDocument) (line : nat) (t : jsstring)
    : TextDocument :=
  {| languageId := languageId doc;
     fileName := fileName doc;
     text := insert_at_line line t (text doc) |}.

(** ** Language definitions of the host *)

(** One entry of [packageJSON.contributes.languages]. *)
Module Contributes.
Record language := {
  id : jsstring;
  extensions : option (list jsstring);
  firstLine : option jsstring;
  configuration : option jsstring
}.
End Contributes.

(** An installed extension ([vscode.Extension]); [languages] is
    [packageJSON.contributes && packageJSON.contributes.languages]. *)
Record Extension := {
  extensionPath : jsstring;
  languages : option (list Contributes.language)
}.

(** [type LanguageConfig]; [firstLine] holds the source of its [RegExp]. *)
Record LanguageConfig := {
  id : jsstring;
  firstLine : option jsstring;
  vsconfig : LanguageConfiguration
}.

(** What the class asks of its host. *)
Record Host := {
  (** [vscode.workspace.getConfiguration()] *)
  configView : ConfigView;
  (** [(new Date()).getFullYear()] *)
  getFullYear : N;
  (** [vscode.extensions.all] *)
  extensions_all : list Extension;
  (** [path.extname], [String.prototype.toLowerCase], [path.join] *)
  extname : jsstring -> jsstring;
  toLowerCase : jsstring -> jsstring;
  path_join : jsstring -> jsstring -> jsstring;
  (** [require(uri)], [fs.readFileSync(uri, 'utf8')], [JSON.parse] *)
  require : jsstring -> result LanguageConfiguration;
  readFileSync : jsstring -> result jsstring;
  JSON_parse : jsstring -> result LanguageConfiguration;
  (** the upper-case table used by case-insensitive matching *)
  upper1 : jschar -> jschar;
  (** the regular-expression engine on the first-line patterns of language
      definitions: whether [new RegExp(source)] compiles, and [test] *)
  firstLine_compiles : jsstring -> bool;
  firstLine_test : jsstring -> jsstring -> bool
}.

(** The state of a session: the cache of the class and the active editor. *)
Record World := {
  cachedLanguageConfigs : gmap jsstring LanguageConfig;
  activeTextEditor : option TextDocument
}.

(** [array.indexOf(x)] *)
Fixpoint indexOf (x : jsstring) (l : list jsstring) : Z :=
  match l with
  | [] => (-1)%Z
  | y :: r =>
      if jseqb y x then 0%Z
      else let i := indexOf x r in if (i <? 0)%Z then (-1)%Z else (i + 1)%Z
  end.

(** [array.find(p)] for a predicate that may throw. *)
Fixpoint find {A} (p : A -> result bool) (l : list A) : result (option A) :=
  match l with
  | [] => Ok None
  | x :: r => let! b := p x in if b then Ok (Some x) else find p r
  end.

(** The line that the loop of [loadLanguageConfiguration] leaves at a
    position: a line whose first characters after white space are [//]
    becomes a carriage return. *)
Definition blank_comment (line : jsstring) : jsstring :=
  if startsWith (trimStart line) (js "//") then [CR] else line.

(** [for (let i = lines.length - 1; i >= 0; i--) ...], with [n = i + 1]. *)
Fixpoint blank_comments_loop (n : nat) (lines : list jsstring)
    : list jsstring :=
  match n with
  | O => lines
  | S i =>
      blank_comments_loop i
        (match lines !! i with
         | Some l =>
             if startsWith (trimStart l) (js "//")
             then <[i := [CR]]> lines else lines
         | None => lines
         end)
  end.

Section Inserter.
Variable host : Host.

Definition loadLanguageConfiguration (uri : jsstring)
    : result LanguageConfiguration :=
  match require host uri with
  | Ok v => Ok v
  | Throw e =>
      if negb (is_SyntaxError e) then Throw e
      else
        let! content := readFileSync host uri in
        let lines := split LF content in
        let lines := blank_comments_loop (length lines) lines in
        JSON_parse host (join LF lines)
  end.

(** The test of [languages.find] in [getLanguageConfigById]. *)
Definition language_matches (id fileExt : jsstring)
    (it : Contributes.language) : result bool :=
  if jseqb (Contributes.id it) id then
    if negb (truthy fileExt) then Ok true
    else
      match Contributes.extensions it with
      | Some exts => Ok (0 <=? indexOf fileExt exts)%Z
      | None => Throw TypeError
      end
  else Ok false.

(** [data.firstLine ? new RegExp(data.firstLine) : undefined] *)
Definition compile_firstLine (data : Contributes.language)
    : result (option jsstring) :=
  match Contributes.firstLine data with
  | Some p =>
      if truthy p
      then if firstLine_compiles host p then Ok (Some p)
           else Throw SyntaxError
      else Ok None
  | None => Ok None
  end.

(** The object literal that [getLanguageConfigById] builds from a match. *)
Definition make_config (id : jsstring) (extension : Extension)
    (data : Contributes.language) : result LanguageConfig :=
  let! firstLine := compile_firstLine data in
  let! vsconfig :=
    match Contributes.configuration data with
    | Some c =>
        loadLanguageConfiguration (path_join host (extensionPath extension) c)
    | None => Throw TypeError
    end in
  Ok {| id := id; firstLine := firstLine; vsconfig := vsconfig |}.

(** [for (const extension of vscode.extensions.all) ...] *)
Fixpoint scan_extensions (id fileExt : jsstring) (all : list Extension)
    : result (option LanguageConfig) :=
  match all with
  | [] => Ok None
  | extension :: rest =>
      match languages extension with
      | Some ls =>
          let! data := find (language_matches id fileExt) ls in
          match data with
          | Some data =>
              let! config := make_config id extension data in
              Ok (Some config)
          | None => scan_extensions id fileExt rest
          end
      | None => scan_extensions id fileExt rest
      end
  end.

Definition cache_key (id fileExt : jsstring) : jsstring :=
  id ++ js "+" ++ fileExt.

Definition getLanguageConfigById
    (cache : gmap jsstring LanguageConfig) (id fileName : jsstring)
    : result (option LanguageConfig) * gmap jsstring LanguageConfig :=
  let fileExt := toLowerCase host (extname host fileName) in
  match cache !! cache_key id fileExt with
  | Some config => (Ok (Some config), cache)
  | None =>
      match scan_extensions id fileExt (extensions_all host) with
      | Ok (Some config) =>
          (Ok (Some config), <[cache_key id fileExt := config]> cache)
      | r => (r, cache)
      end
  end.

Definition copyright_pattern (token : jsstring) : jsstring :=
  js "^" ++ token ++ js ".*Copyright".

Definition flags_mis : Flags :=
  {| multiline := true; ignoreCase := true; dotAll := true |}.
Definition flags_mi : Flags :=
  {| multiline := true; ignoreCase := true; dotAll := false |}.

Definition hasCopyright (doc : TextDocument) (c : option CommentRule)
    : result bool :=
  let prefix := getText doc 10 in
  match c with
  | None => Throw TypeError
  | Some c =>
      let found :=
        match blockComment c with
        | Some (bc0, _) =>
            let bcStart := escapeStringForRegexp bc0 in
            RegExp_test (upper1 host) (copyright_pattern bcStart)
              flags_mis prefix
        | None => false
        end in
      if found then Ok true
      else
        let found :=
          match lineComment_token c with
          | Some l =>
              let lc := escapeStringForRegexp l in
              RegExp_test (upper1 host) (copyright_pattern lc)
                flags_mi prefix
          | None => false
          end in
        if found then Ok true else Ok false
  end.

Definition calculateInsertLineIndex (doc : TextDocument)
    (language : LanguageConfig) : nat :=
  let line := 0%nat in
  let firstLine_text := getText doc 1 in
  let line :=
    match firstLine language with
    | Some re => if firstLine_test host re firstLine_text then 1%nat else line
    | None => line
    end in
  let line :=
    if jseqb (id language) (js "html")
       && startsWith firstLine_text (js "<!doctype")
    then 1%nat else line in
  let line :=
    if jseqb (id language) (js "shellscript")
       && startsWith firstLine_text (js "#!/")
    then 1%nat else line in
  line.

(** How a run of the command ends. *)
Inductive Outcome :=
| UnsupportedLicense
| NoActiveEditor
| LanguageNotFound
| AlreadyHasCopyright
| InvalidComments
| Inserted (startLine : nat) (header : jsstring)
| Uncaught (e : js_error).

Definition insertHeader (w : World) : Outcome * World :=
  let extensionConfig := getExtensionConfig (configView host) (getFullYear host) in
  match CopyrightMap !! license extensionConfig with
  | None => (UnsupportedLicense, w)
  | Some licenseTemplate =>
      match activeTextEditor w with
      | None => (NoActiveEditor, w)
      | Some document =>
          let '(language, cache) :=
            getLanguageConfigById (cachedLanguageConfigs w)
              (languageId document) (fileName document) in
          let w := {| cachedLanguageConfigs := cache;
                      activeTextEditor := Some document |} in
          match language with
          | Throw e => (Uncaught e, w)
          | Ok None => (LanguageNotFound, w)
          | Ok (Some language) =>
              match hasCopyright document (comments (vsconfig language)) with
              | Throw e => (Uncaught e, w)
              | Ok true => (AlreadyHasCopyright, w)
              | Ok false =>
                  let startLine := calculateInsertLineIndex document language in
                  match formatHeader licenseTemplate (data extensionConfig)
                          (vsconfig language) (useLineComment extensionConfig) with
                  | Throw e => (Uncaught e, w)
                  | Ok header =>
                      if negb (truthy header) then (InvalidComments, w)
                      else
                        let header :=
                          if (startLine =? lineCount document)%nat
                          then LF :: header else header in
                        (Inserted startLine header,
                         {| cachedLanguageConfigs := cache;
                            activeTextEditor :=
                              Some (insert document startLine header) |})
                  end
              end
          end
      end
  end.
End Inserter.

(** ** A concrete host

    Used to evaluate the functions on examples: ASCII case tables, a file
    extension taken after the last dot of the last path segment, and a file
    system given as a table from paths to the result of [require]. *)

Definition ascii_upper (c : jschar) : jschar :=
  if (97 <=? c) && (c <=? 122) then c - 32 else c.

Definition ascii_lower (c : jschar) : jschar :=
  if (65 <=? c) && (c <=? 90) then c + 32 else c.

Fixpoint last_dot_suffix (s : jsstring) : option jsstring :=
  match s with
  | [] => None
  | c :: r =>
      match last_dot_suffix r with
      | Some x => Some x
      | None => if c =? 46 then Some s else None
      end
  end.

Definition simple_extname (p : jsstring) : jsstring :=
  match last (split 47 p) with
  | Some (_ :: r) => default [] (last_dot_suffix r)
  | _ => []
  end.

Fixpoint table_lookup {A} (k : jsstring) (t : list (jsstring * A))
    : option A :=
  match t with
  | [] => None
  | (k', v) :: r => if jseqb k' k then Some v else table_lookup k r
  end.

Definition no_flags : Flags :=
  {| multiline := false; ignoreCase := false; dotAll := false |}.

Definition table_host (cfg : ConfigView) (fullYear : N)
    (all : list Extension)
    (files : list (jsstring * result LanguageConfiguration)) : Host :=
  {| configView := cfg;
     getFullYear := fullYear;
     extensions_all := all;
     extname := simple_extname;
     toLowerCase := List.map ascii_lower;
     path_join := fun a b => a ++ js "/" ++ b;
     require := fun uri => default (Throw (OtherError 0)) (table_lookup uri files);
     readFileSync := fun _ => Throw (OtherError 1);
     JSON_parse := fun _ => Throw SyntaxError;
     upper1 := ascii_upper;
     firstLine_compiles := fun p => bool_decide (is_Some (parse p));
     firstLine_test := fun p t => RegExp_test ascii_upper p no_flags t |}.

Definition default_settings : ConfigView :=
  {| copyrightInserter_license := None;
     copyrightInserter_useLineComment := None;
     copyrightInserter_holder := Some (js "Example Corp");
     copyrightInserter_year := None |}.

Definition comments_of (l : option jsstring) (b : option (jsstring * jsstring))
    : LanguageConfiguration :=
  {| comments := Some {| lineComment := l; blockComment := b |} |}.

Definition c_style : LanguageConfiguration :=
  comments_of (Some (js "//")) (Some (js "/*", js "*/")).
Definition css_style : LanguageConfiguration :=
  comments_of None (Some (js "/*", js "*/")).
Definition sh_style : LanguageConfiguration :=
  comments_of (Some (js "#")) None.

Definition language_entry (id : jsstring) (exts : list jsstring)
    (first : option jsstring) : Contributes.language :=
  {| Contributes.id := id;
     Contributes.extensions := Some exts;
     Contributes.firstLine := first;
     Contributes.configuration := Some (id ++ js ".json") |}.

Definition installed : list Extension :=
  [ {| extensionPath := js "/ext/theme"; languages := None |};
    {| extensionPath := js "/ext/web";
       languages := Some [ language_entry (js "css") [js ".css"] None;
                           language_entry (js "typescript") [js ".ts"] None ] |};
    {| extensionPath := js "/ext/sh";
       languages := Some [ language_entry (js "shellscript") [js ".sh"]
                             (Some (js "^#!/bin/sh")) ] |} ].

Definition installed_files : list (jsstring * result LanguageConfiguration) :=
  [ (js "/ext/web/css.json", Ok css_style);
    (js "/ext/web/typescript.json", Ok c_style);
    (js "/ext/sh/shellscript.json", Ok sh_style) ].

Definition demo_host (cfg : ConfigView) : Host :=
  table_host cfg 2024 installed installed_files.

Definition editing (lang file content : jsstring) : World :=
  {| cachedLanguageConfigs := ∅;
     activeTextEditor :=
       Some {| languageId := lang; fileName := file; text := content |} |}.

Definition document_text (w : World) : option jsstring :=
  text <$> activeTextEditor w.

(** ** Notions used to state the properties *)

(** [render(licenseKey, holder, year)]: the lookup in [CopyrightMap]
    followed by the call of the template, as [insertHeader] and
    [formatHeader] perform them. *)
Definition render (licenseKey holder year : jsstring) : option jsstring :=
  (fun template : LicenseTemplate => template holder year)
    <$> CopyrightMap !! licenseKey.

Definition supported_licenses : list jsstring :=
  [js "apache"; js "bsd"; js "mit"; js "gpl3"].

(** What a template adds after the holder: the text it renders for an empty
    holder and an empty year, without its first [n] code units. *)
Definition fixed_tail (template : LicenseTemplate) (n : nat) : jsstring :=
  drop n (template [] []).

(** The first line of a text. *)
Definition first_line_of (s : jsstring) : jsstring := hd [] (split LF s).

(** A line with a character that is not white space. *)
Definition has_ink (line : jsstring) : bool :=
  existsb (fun c => negb (is_white c)) line.

(** The line that [formatString] emits for a body line. *)
Definition emitted_line (prefix line : jsstring) : jsstring :=
  trimRight (prefix ++ line).

(** The header of a run that inserted one. *)
Definition inserted_header (o : Outcome) : jsstring :=
  match o with
  | Inserted _ header => header
  | _ => []
  end.

(** A shell script of one line, and the run of the command on it. *)
Definition one_line_script : TextDocument :=
  {| languageId := js "shellscript";
     fileName := js "/bin/run.sh";
     text := js "#!/usr/bin/env bash" |}.

Definition script_session : World :=
  {| cachedLanguageConfigs := ∅; activeTextEditor := Some one_line_script |}.

(** The language definitions of the host in the order of the scan, each
    with the extension that contributes it. *)
Definition all_languages (all : list Extension)
    : list (Extension * Contributes.language) :=
  flat_map
    (fun e =>
       match languages e with
       | Some ls => List.map (pair e) ls
       | None => []
       end)
    all.

(** The condition of the scan: the same id, and a file without extension
    or an extension that the definition lists. *)
Definition matches_file (id fileExt : jsstring) (it : Contributes.language)
    : bool :=
  jseqb (Contributes.id it) id
  && (negb (truthy fileExt)
      || match Contributes.extensions it with
         | Some exts => bool_decide (fileExt ∈ exts)
         | None => false
         end).

Definition first_match (id fileExt : jsstring) (all : list Extension)
    : option (Extension * Contributes.language) :=
  List.find (fun p => matches_file id fileExt (snd p)) (all_languages all).

(** The condition in the words of the specification: the same id, and a
    list of extensions that is absent, empty, or holds the extension of the
    file. *)
Definition matches_as_specified (id fileExt : jsstring)
    (it : Contributes.language) : bool :=
  jseqb (Contributes.id it) id
  && match Contributes.extensions it with
     | None => true
     | Some [] => true
     | Some exts => bool_decide (fileExt ∈ exts)
     end.

Definition first_match_as_specified (id fileExt : jsstring)
    (all : list Extension) : option (Extension * Contributes.language) :=
  List.find (fun p => matches_as_specified id fileExt (snd p))
    (all_languages all).

(** Every definition of the language declares its list of extensions. *)
Definition extensions_declared (id : jsstring) (all : list Extension) : Prop :=
  Forall
    (fun p => Contributes.id (snd p) = id →
              is_Some (Contributes.extensions (snd p)))
    (all_languages all).

(** A host with a definition of makefiles (extensions .mk and .mak) and a
    definition of Dockerfiles, which lists no extension. *)
Definition build_tools : list Extension :=
  [ {| extensionPath := js "/ext/make";
       languages := Some [ language_entry (js "makefile") [js ".mk"; js ".mak"] None ] |};
    {| extensionPath := js "/ext/docker";
       languages := Some [ language_entry (js "dockerfile") [] None ] |} ].

Definition build_tools_host : Host :=
  table_host default_settings 2024 build_tools
    [ (js "/ext/make/makefile.json", Ok sh_style);
      (js "/ext/docker/dockerfile.json", Ok sh_style) ].

(** A host whose configuration file of TypeScript cannot be read. *)
Definition broken_host : Host :=
  table_host default_settings 2024 installed
    [ (js "/ext/web/typescript.json", Throw (OtherError 2)) ].

(** A host whose configuration files are JSON with comments: the strict
    load fails with a syntax error, and the parser accepts the text once
    its comment line is blanked. *)
Definition commented_host : Host :=
  {| configView := default_settings;
     getFullYear := 2024;
     extensions_all := installed;
     extname := simple_extname;
     toLowerCase := List.map ascii_lower;
     path_join := fun a b => a ++ js "/" ++ b;
     require := fun _ => Throw SyntaxError;
     readFileSync := fun _ => Ok (js "  // comments" ++ LF :: js "{}");
     JSON_parse := fun s =>
       if jseqb s (CR :: LF :: js "{}") then Ok c_style else Throw SyntaxError;
     upper1 := ascii_upper;
     firstLine_compiles := fun p => bool_decide (is_Some (parse p));
     firstLine_test := fun p t => RegExp_test ascii_upper p no_flags t |}.

(** The code unit that precedes the position reached after reading [w]. *)
Definition prev_after (prev : option jschar) (w : jsstring) : option jschar :=
  match last w with
  | Some c => Some c
  | None => prev
  end.

(** [a] and [b] are the same text for a matcher under [flags]: code unit by
    code unit they agree after [Canonicalize]. *)
Definition same_text (up : jschar -> jschar) (flags : Flags)
    (a b : jsstring) : Prop :=
  Forall2 (fun c p => Canonicalize up flags c = Canonicalize up flags p) a b.

(** [before] ends where a line starts: it is empty or ends with a line
    terminator. *)
Definition at_line_start (before : jsstring) : Prop :=
  before = [] ∨ ∃ b c, before = b ++ [c] ∧ is_line_terminator c = true.

Definition on_one_line (s : jsstring) : Prop :=
  Forall (fun c => is_line_terminator c = false) s.

(** A line of [text] begins with [token], and the word Copyright comes
    after the token, letter case apart: anywhere after it when [spanning],
    before the end of the line otherwise. *)
Definition copyright_after (up : jschar -> jschar) (spanning : bool)
    (token text : jsstring) : Prop :=
  ∃ before tok between word after,
    text = before ++ tok ++ between ++ word ++ after
    ∧ at_line_start before
    ∧ same_text up flags_mi tok token
    ∧ same_text up flags_mi word (js "Copyright")
    ∧ (spanning = false → on_one_line between).

Definition literal (c : jschar) : item := IOne (SChar c).

(** The pattern that [hasCopyright] compiles for a comment token. *)
Definition copyright_regex (token : jsstring) : list item :=
  IBol :: List.map literal token
    ++ IStar SDot :: List.map literal (js "Copyright").

(** A document that starts with the word Copyright outside any comment,
    and a comment rule whose line-comment token is the empty string. *)
Definition plain_notice : TextDocument :=
  {| languageId := js "plaintext";
     fileName := js "/NOTICE";
     text := js "Copyright 2020 Example Corp" |}.

Definition empty_token_rule : CommentRule :=
  {| lineComment := Some []; blockComment := None |}.

(** The number of line breaks of a text. *)
Definition count_LF (s : jsstring) : nat :=
  length (List.filter (fun c => c =? LF) s).

(** [formatHeader] wraps the body in a comment whose opening token holds no
    line break: the block comment when line comments are not forced and a
    block comment exists, the line-comment token otherwise, when there is
    one that is not empty. *)
Definition wraps_in_comment (useLineComment : bool) (c : CommentRule) : bool :=
  match (if useLineComment then None else blockComment c) with
  | Some (bc0, _) => bool_decide (LF ∉ bc0)
  | None =>
      match lineComment_token c with
      | Some l => bool_decide (LF ∉ l)
      | None => false
      end
  end.

(** The comment rule that a run of the command resolves for the active
    document. *)
Definition resolved_comments (host : Host) (w : World) : option CommentRule :=
  match activeTextEditor w with
  | Some doc =>
      match fst (getLanguageConfigById host (cachedLanguageConfigs w)
                   (languageId doc) (fileName doc)) with
      | Ok (Some language) => comments (vsconfig language)
      | _ => None
      end
  | None => None
  end.

(** The header of a run on [w], if one is inserted, is wrapped in a
    comment. *)
Definition header_is_comment (host : Host) (w : World) : bool :=
  match resolved_comments host w with
  | Some c =>
      wraps_in_comment
        (useLineComment (getExtensionConfig (configView host) (getFullYear host)))
        c
  | None => true
  end.

(** Settings that force line comments, and a style sheet. *)
Definition line_comment_settings : ConfigView :=
  {| copyrightInserter_license := Some (js "bsd");
     copyrightInserter_useLineComment := Some true;
     copyrightInserter_holder := Some (js "Example Corp");
     copyrightInserter_year := Some (js "2024") |}.

Definition style_sheet : World :=
  editing (js "css") (js "/web/site.css") (js "a { color: red }").

(** A language whose block comment opens with a token of eleven lines. *)
Definition tall_opener : jsstring :=
  js "<!--" ++ repeat LF 10 ++ js "=".

Definition tall_host : Host :=
  table_host default_settings 2024
    [ {| extensionPath := js "/ext/tall";
         languages := Some [ language_entry (js "tall") [js ".tall"] None ] |} ]
    [ (js "/ext/tall/tall.json",
       Ok (comments_of None (Some (tall_opener, js "-->")))) ].

(** Comment rules of a shell-like and of a markup language. *)
Definition hash_rule : CommentRule :=
  {| lineComment := Some (js "#"); blockComment := None |}.

Definition markup_rule : CommentRule :=
  {| lineComment := None; blockComment := Some (js "<!--", js "-->") |}.

Definition example_data : CopyrightData :=
  {| holder := js "Example Corp"; year := js "2024" |}.

(** A document of twelve lines whose last line holds a notice. *)
Definition twelve_lines : TextDocument :=
  {| languageId := js "typescript";
     fileName := js "/src/long.ts";
     text := concat (repeat (js "let x = 1;" ++ [LF]) 11)
             ++ js "// Copyright 2020 Example Corp" |}.

(** A host with a language whose configuration has no [comments]. *)
Definition bare_host : Host :=
  table_host default_settings 2024
    [ {| extensionPath := js "/ext/log";
         languages := Some [ language_entry (js "log") [js ".log"] None ] |} ]
    [ (js "/ext/log/log.json", Ok {| comments := None |}) ].

(** The plus sign that joins the two parts of a cache key. *)
Definition PLUS : jschar := 43.

(** Every entry of the cache, under the key of a language id without a
    plus sign and an extension, is the configuration that the scan of the
    installed extensions returns for that id and extension. *)
Definition cache_sound (host : Host) (cache : gmap jsstring LanguageConfig)
    : Prop :=
  ∀ id fileExt config,
    PLUS ∉ id →
    cache !! cache_key id fileExt = Some config →
    scan_extensions host id fileExt (extensions_all host) = Ok (Some config).

(** A host with a language definition that lists no extensions at all. *)
Definition ignore_files_host : Host :=
  table_host default_settings 2024
    [ {| extensionPath := js "/ext/git";
         languages := Some [
           {| Contributes.id := js "ignore";
              Contributes.extensions := None;
              Contributes.firstLine := None;
              Contributes.configuration := Some (js "ignore.json") |} ] |} ]
    [ (js "/ext/git/ignore.json", Ok sh_style) ].

(** A host with a language whose comment rule names no token. *)
Definition tokenless_host : Host :=
  table_host default_settings 2024
    [ {| extensionPath := js "/ext/txt";
         languages := Some [ language_entry (js "plaintext") [js ".txt"] None ] |} ]
    [ (js "/ext/txt/plaintext.json", Ok (comments_of None None)) ].

(** A cache that already holds the configuration of TypeScript files, and a
    session that edits a style sheet with that cache. *)
Definition typescript_config : LanguageConfig :=
  {| id := js "typescript"; firstLine := None; vsconfig := c_style |}.

Definition warm_cache : gmap jsstring LanguageConfig :=
  {[ cache_key (js "typescript") (js ".ts") := typescript_config ]}.

Definition warm_session : World :=
  {| cachedLanguageConfigs := warm_cache;
     activeTextEditor :=
       Some {| languageId := js "css"; fileName := js "/web/site.css";
               text := js "a { color: red }" |} |}.

(** * Properties *)

(** ** Strings *)

Lemma truthy_true (s : jsstring) : truthy s = true ↔ s ≠ [].
Proof. destruct s; simpl; split; congruence. Qed.

Lemma jseqb_eq (a b : jsstring) : jseqb a b = true ↔ a = b.
Proof. unfold jseqb. apply bool_decide_eq_true. Qed.

Lemma jseqb_neq (a b : jsstring) : jseqb a b = false ↔ a ≠ b.
Proof. unfold jseqb. apply bool_decide_eq_false. Qed.

Lemma startsWith_app (s p : jsstring) :
  startsWith s p = true ↔ ∃ r, s = p ++ r.
Proof.
  revert s. induction p as [|x p IH]; intros s; simpl.
  - split; [intros _; by exists s | done].
  - destruct s as [|c s]; [split; [done | intros [r Hr]; done]|].
    rewrite andb_true_iff, N.eqb_eq, IH. split.
    + intros [-> [r ->]]. by exists r.
    + intros [r Hr]. injection Hr as -> ->. eauto.
Qed.

Lemma split_not_nil (sep : jschar) (s : jsstring) : split sep s ≠ [].
Proof.
  induction s as [|c r IH]; simpl; [done|].
  destruct (c =? sep); [done|]. by destruct (split sep r).
Qed.

Lemma split_no_sep (sep : jschar) (l : jsstring) :
  sep ∉ l → split sep l = [l].
Proof.
  induction l as [|c r IH]; simpl; [done|].
  intros Hn. apply not_elem_of_cons in Hn as [Hc Hr].
  destruct (N.eqb_spec c sep); [congruence|]. by rewrite IH.
Qed.

Lemma split_app_sep (sep : jschar) (l r : jsstring) :
  sep ∉ l → split sep (l ++ sep :: r) = l :: split sep r.
Proof.
  induction l as [|c l IH]; simpl; intros Hn.
  - by rewrite N.eqb_refl.
  - apply not_elem_of_cons in Hn as [Hc Hl].
    destruct (N.eqb_spec c sep); [congruence|]. by rewrite IH.
Qed.

Lemma split_lines_no_sep (sep : jschar) (s l : jsstring) :
  l ∈ split sep s → sep ∉ l.
Proof.
  revert l. induction s as [|c r IH]; simpl; intros l Hl.
  - apply list_elem_of_singleton in Hl as ->. apply not_elem_of_nil.
  - destruct (N.eqb_spec c sep) as [->|Hc].
    + apply elem_of_cons in Hl as [->|Hl]; [apply not_elem_of_nil | by apply IH].
    + destruct (split sep r) as [|l0 ls] eqn:E.
      * apply list_elem_of_singleton in Hl as ->.
        apply not_elem_of_cons; split; [congruence | apply not_elem_of_nil].
      * apply elem_of_cons in Hl as [->|Hl].
        -- apply not_elem_of_cons; split; [congruence|]. apply IH. left.
        -- apply IH. by right.
Qed.

Lemma join_split (sep : jschar) (s : jsstring) : join sep (split sep s) = s.
Proof.
  induction s as [|c r IH]; simpl; [done|].
  destruct (N.eqb_spec c sep) as [->|Hc].
  - pose proof (split_not_nil sep r).
    simpl. destruct (split sep r); [done|]. by rewrite IH.
  - destruct (split sep r) as [|l0 ls] eqn:E; [by destruct (split_not_nil sep r)|].
    simpl in *. destruct ls; simpl in *; by rewrite <- IH.
Qed.

Lemma trimRight_cons_nonwhite (c : jschar) (r : jsstring) :
  is_white c = false → trimRight (c :: r) = c :: trimRight r.
Proof. intros H. simpl. rewrite H. by destruct (trimRight r). Qed.

Lemma trimRight_app_nonwhite (p : jsstring) (c : jschar) (r : jsstring) :
  is_white c = false → trimRight (p ++ c :: r) = p ++ c :: trimRight r.
Proof.
  intros H. induction p as [|a p IH]; [by apply trimRight_cons_nonwhite|].
  change (trimRight ((a :: p) ++ c :: r))
    with (match trimRight (p ++ c :: r) with
          | [] => if is_white a then [] else [a]
          | r' => a :: r'
          end).
  rewrite IH. by destruct p.
Qed.

Lemma trimRight_elem_of (x : jschar) (s : jsstring) :
  x ∈ trimRight s → x ∈ s.
Proof.
  induction s as [|c r IH]; simpl; [done|].
  destruct (trimRight r) as [|y r'] eqn:E.
  - destruct (is_white c); [by intros ?%elem_of_nil|].
    intros ->%list_elem_of_singleton. left.
  - intros [->|Hx]%elem_of_cons; [left | right; by apply IH].
Qed.

Lemma trimRight_all_white (s : jsstring) :
  forallb is_white s = true → trimRight s = [].
Proof.
  induction s as [|c r IH]; simpl; [done|].
  intros [Hc Hr]%andb_true_iff. by rewrite IH, Hc.
Qed.

(** The loop of [formatString] appends one trimmed line after the other. *)
Lemma formatString_loop (prefix : jsstring) (ls : list jsstring)
    (acc : jsstring) :
  fold_left (fun result line => result ++ trimRight (prefix ++ line) ++ [LF])
    ls acc
  = acc ++ concat (List.map (fun line => trimRight (prefix ++ line) ++ [LF]) ls).
Proof.
  revert acc. induction ls as [|l ls IH]; intros acc; simpl.
  - by rewrite app_nil_r.
  - rewrite IH. by rewrite <- !app_assoc.
Qed.

Lemma formatString_eq (header first_line prefix last_line : jsstring) :
  formatString header first_line prefix last_line
  = (if truthy first_line then first_line ++ [LF] else [])
    ++ concat (List.map (fun line => trimRight (prefix ++ line) ++ [LF])
                        (split LF header))
    ++ (if truthy last_line then last_line ++ [LF] else [])
    ++ [LF].
Proof.
  unfold formatString. rewrite formatString_loop.
  destruct (truthy first_line), (truthy last_line); simpl;
    rewrite <- ?app_assoc; simpl; rewrite ?app_nil_r; reflexivity.
Qed.

(** The lines of a text made of lines that hold no LF. *)
Lemma split_concat_lines (ls : list jsstring) (rest : jsstring) :
  Forall (fun l => LF ∉ l) ls →
  split LF (concat (List.map (fun l => l ++ [LF]) ls) ++ rest)
  = ls ++ split LF rest.
Proof.
  induction 1 as [|l ls Hl _ IH]; simpl; [done|].
  rewrite <- !app_assoc. simpl. rewrite split_app_sep by done. by rewrite IH.
Qed.

(** ** License Template Registry *)

Lemma CopyrightMap_lookup_None (k : jsstring) :
  CopyrightMap !! k = None ↔ k ∉ supported_licenses.
Proof.
  unfold CopyrightMap, supported_licenses. simpl.
  rewrite !not_elem_of_cons.
  destruct (decide (js "apache" = k)) as [<-|H1]; [split; [done | tauto]|].
  rewrite lookup_insert_ne by done.
  destruct (decide (js "bsd" = k)) as [<-|H2]; [split; [done | tauto]|].
  rewrite lookup_insert_ne by done.
  destruct (decide (js "mit" = k)) as [<-|H3]; [split; [done | tauto]|].
  rewrite lookup_insert_ne by done.
  destruct (decide (js "gpl3" = k)) as [<-|H4]; [split; [done | tauto]|].
  rewrite lookup_insert_ne by done.
  split; [|done]. intros _.
  repeat split; try congruence. apply not_elem_of_nil.
Qed.

(** C6 (as amended): the four templates render the literal license text with
    year and holder put after the word Copyright (after "Copyright (c)" for
    bsd, mit and gpl3); the first line ends after the holder for apache, mit
    and gpl3 and goes on with " All rights reserved." for bsd; every other
    key is not found, and the command then stops without touching the
    session. *)
Theorem C6_license_templates (holder year k : jsstring) :
  render (js "apache") holder year
    = Some (js "Copyright " ++ year ++ js " " ++ holder ++ fixed_tail apache 11)
  ∧ render (js "bsd") holder year
    = Some (js "Copyright (c) " ++ year ++ js " " ++ holder ++ fixed_tail bsd 15)
  ∧ render (js "mit") holder year
    = Some (js "Copyright (c) " ++ year ++ js " " ++ holder ++ fixed_tail mit 15)
  ∧ render (js "gpl3") holder year
    = Some (js "Copyright (c) " ++ year ++ js " " ++ holder ++ fixed_tail gpl3 15)
  ∧ (∃ r, fixed_tail apache 11 = LF :: r)
  ∧ (∃ r, fixed_tail bsd 15 = js " All rights reserved." ++ LF :: r)
  ∧ (∃ r, fixed_tail mit 15 = LF :: r)
  ∧ (∃ r, fixed_tail gpl3 15 = LF :: r)
  ∧ (render k holder year = None ↔ k ∉ supported_licenses)
  ∧ (∀ host w,
       license (getExtensionConfig (configView host) (getFullYear host)) = k →
       k ∉ supported_licenses →
       insertHeader host w = (UnsupportedLicense, w)).
Proof.
  do 4 (split; [reflexivity|]).
  do 4 (split; [eexists; reflexivity|]).
  split.
  - unfold render. rewrite fmap_None. apply CopyrightMap_lookup_None.
  - intros host w Hk Hn. unfold insertHeader. rewrite Hk.
    apply CopyrightMap_lookup_None in Hn. by rewrite Hn.
Qed.

(** C6, the claim as stated fails for bsd: the first line of the rendered
    text is not "Copyright (c) {year} {holder}". *)
Lemma C6_bsd_first_line_counterexample :
  render (js "bsd") (js "Example Corp") (js "2024")
    = Some (bsd (js "Example Corp") (js "2024"))
  ∧ first_line_of (bsd (js "Example Corp") (js "2024"))
    = js "Copyright (c) 2024 Example Corp All rights reserved."
  ∧ first_line_of (bsd (js "Example Corp") (js "2024"))
    ≠ js "Copyright (c) 2024 Example Corp".
Proof. vm_compute. repeat split; congruence. Qed.


(** ** Header Formatter *)

(** Closed decidable facts are settled by evaluation. *)
Ltac by_decide :=
  match goal with
  | |- ?P => apply (bool_decide_unpack P); vm_compute; exact I
  end.

Lemma trimRight_not_nil (line : jsstring) :
  has_ink line = true → trimRight line ≠ [].
Proof.
  induction line as [|c r IH]; simpl; [done|].
  destruct (is_white c) eqn:Hc; simpl; intros H.
  - specialize (IH H). by destruct (trimRight r).
  - by destruct (trimRight r).
Qed.

Lemma trimRight_prefix_ink (p line : jsstring) :
  has_ink line = true → trimRight (p ++ line) = p ++ trimRight line.
Proof.
  intros H. induction p as [|a p IH]; [done|].
  change (trimRight ((a :: p) ++ line))
    with (match trimRight (p ++ line) with
          | [] => if is_white a then [] else [a]
          | r' => a :: r'
          end).
  rewrite IH. pose proof (trimRight_not_nil line H).
  destruct p, (trimRight line); simpl; congruence.
Qed.

Lemma has_ink_false (line : jsstring) :
  has_ink line = false → forallb is_white line = true.
Proof.
  induction line as [|c r IH]; simpl; [done|].
  destruct (is_white c); simpl; [done | discriminate].
Qed.

(** A banner line: the right-trimmed line after " * ", or " *" alone when
    the line holds white space only. *)
Lemma emitted_banner_line (line : jsstring) :
  emitted_line (js " * ") line
  = if has_ink line then js " * " ++ trimRight line else js " *".
Proof.
  unfold emitted_line. destruct (has_ink line) eqn:H.
  - by apply trimRight_prefix_ink.
  - apply has_ink_false in H.
    change (js " * " ++ line) with ([32] ++ 42 :: (32 :: line)).
    rewrite trimRight_app_nonwhite by reflexivity.
    rewrite trimRight_all_white; [reflexivity|]. by simpl.
Qed.

Lemma emitted_line_no_LF (prefix line : jsstring) :
  LF ∉ prefix → LF ∉ line → LF ∉ emitted_line prefix line.
Proof.
  intros Hp Hl Hin. apply trimRight_elem_of in Hin.
  apply elem_of_app in Hin as [?|?]; tauto.
Qed.

(** The lines of a formatted header. *)
Lemma formatString_lines (header first_line prefix last_line : jsstring) :
  LF ∉ first_line → LF ∉ prefix → LF ∉ last_line →
  split LF (formatString header first_line prefix last_line)
  = (if truthy first_line then [first_line] else [])
    ++ List.map (emitted_line prefix) (split LF header)
    ++ (if truthy last_line then [last_line] else [])
    ++ [[]; []].
Proof.
  intros Hf Hp Hl.
  set (ls := (if truthy first_line then [first_line] else [])
             ++ List.map (emitted_line prefix) (split LF header)
             ++ (if truthy last_line then [last_line] else [])).
  assert (E : formatString header first_line prefix last_line
              = concat (List.map (fun l => l ++ [LF]) ls) ++ [LF]).
  { rewrite formatString_eq. unfold ls.
    rewrite !List.map_app, !concat_app, List.map_map, <- !app_assoc.
    unfold emitted_line.
    destruct (truthy first_line), (truthy last_line); simpl;
      rewrite ?app_nil_r; reflexivity. }
  rewrite E, split_concat_lines.
  - unfold ls. rewrite <- !app_assoc. reflexivity.
  - unfold ls. rewrite !Forall_app. repeat split.
    + destruct (truthy first_line); auto.
    + apply List.Forall_forall. intros x Hx.
      apply List.in_map_iff in Hx as (line & <- & Hline).
      apply list_elem_of_In in Hline.
      apply emitted_line_no_LF; [done|]. by apply split_lines_no_sep in Hline.
    + destruct (truthy last_line); auto.
Qed.

Lemma js_no_LF_banner :
  (LF ∉ js "/*" ++ js "*") ∧ (LF ∉ js " * ") ∧ (LF ∉ js " " ++ js "*/").
Proof. repeat split; by_decide. Qed.

(** C3 (as amended): with the block comment pair "/*", "*/" and no forced
    line comment, the lines of the header are "/**", then for each body line
    the text " * " + line with trailing white space stripped (which is " *"
    alone for a blank line), then " */", then one blank line. *)
Theorem C3_banner_block_header (template : LicenseTemplate)
    (data : CopyrightData) (l : option jsstring) :
  ∃ header,
    formatHeader template data (comments_of l (Some (js "/*", js "*/"))) false
      = Ok header
    ∧ split LF header
      = js "/**"
        :: List.map (emitted_line (js " * "))
             (split LF (template (holder data) (year data)))
        ++ [js " */"; []; []]
    ∧ ∀ line, emitted_line (js " * ") line
        = if has_ink line then js " * " ++ trimRight line else js " *".
Proof.
  eexists. split; [reflexivity|]. split; [|apply emitted_banner_line].
  destruct js_no_LF_banner as (H1 & H2 & H3).
  rewrite formatString_lines by done. reflexivity.
Qed.

(** C3, the claim as stated fails on the blank lines of a license body: the
    third line of the Apache banner is " *", which does not begin with
    " * ". *)
Lemma C3_blank_line_counterexample :
  ∃ header,
    formatHeader apache {| holder := js "Example Corp"; year := js "2024" |}
      c_style false = Ok header
    ∧ split LF header !! 2%nat = Some (js " *")
    ∧ startsWith (js " *") (js " * ") = false.
Proof. eexists. split; [reflexivity|]. vm_compute. done. Qed.

Lemma formatString_ends (header first_line prefix last_line : jsstring) :
  ∃ s, formatString header first_line prefix last_line = s ++ [LF; LF].
Proof.
  rewrite formatString_eq.
  set (F := if truthy first_line then first_line ++ [LF] else []).
  pose proof (split_not_nil LF header) as Hne. revert Hne.
  generalize (split LF header). intros ls Hne.
  destruct (truthy last_line).
  - exists (F ++ concat (List.map (fun line => trimRight (prefix ++ line) ++ [LF]) ls)
              ++ last_line).
    by rewrite <- !app_assoc.
  - destruct ls as [|x ls _] using rev_ind; [done|].
    exists (F ++ concat (List.map (fun line => trimRight (prefix ++ line) ++ [LF]) ls)
              ++ trimRight (prefix ++ x)).
    rewrite List.map_app, concat_app. simpl. by rewrite <- !app_assoc.
Qed.

Lemma formatHeader_ends (template : LicenseTemplate) (data : CopyrightData)
    (language : LanguageConfiguration) (useLineComment : bool)
    (header : jsstring) :
  formatHeader template data language useLineComment = Ok header →
  ∃ s, header = s ++ [LF; LF].
Proof.
  unfold formatHeader. destruct (comments language) as [c|]; [|done].
  destruct (if useLineComment then None else blockComment c) as [[bc0 bc1]|].
  - destruct (jseqb bc0 (js "/*")); intros [= <-]; apply formatString_ends.
  - destruct (lineComment_token c); intros [= <-]; apply formatString_ends.
Qed.

Lemma formatHeader_defined (template : LicenseTemplate) (data : CopyrightData)
    (c : CommentRule) (useLineComment : bool) :
  ∃ header,
    formatHeader template data {| comments := Some c |} useLineComment
      = Ok header.
Proof.
  unfold formatHeader. simpl.
  destruct (if useLineComment then None else blockComment c) as [[bc0 bc1]|].
  - destruct (jseqb bc0 (js "/*")); eauto.
  - destruct (lineComment_token c); eauto.
Qed.

(** C10: on every comment rule [formatHeader] returns a text that ends with
    a line break followed by an empty line, hence is not empty; and no run
    of [insertHeader] ends in the branch that reports invalid comments. *)
Theorem C10_header_never_empty (template : LicenseTemplate)
    (data : CopyrightData) (c : CommentRule) (useLineComment : bool) :
  (∃ s,
     formatHeader template data {| comments := Some c |} useLineComment
       = Ok (s ++ [LF; LF])
     ∧ truthy (s ++ [LF; LF]) = true)
  ∧ (lineComment c = None → blockComment c = None →
     formatHeader template data {| comments := Some c |} useLineComment
       = Ok (formatString (template (holder data) (year data)) [] [] []))
  ∧ ∀ host w, fst (insertHeader host w) ≠ InvalidComments.
Proof.
  split; [|split].
  - destruct (formatHeader_defined template data c useLineComment) as [h Hh].
    destruct (formatHeader_ends _ _ _ _ _ Hh) as [s ->].
    exists s. split; [done|]. by destruct s.
  - intros Hl Hb. unfold formatHeader, lineComment_token. simpl.
    rewrite Hl, Hb. by destruct useLineComment.
  - intros host w. unfold insertHeader.
    destruct (CopyrightMap !! _) as [t|]; [|done].
    destruct (activeTextEditor w) as [doc|]; [|done].
    destruct (getLanguageConfigById _ _ _ _) as [[[lang|]|e] cache]; try done.
    destruct (hasCopyright _ _ _) as [[]|e]; try done.
    destruct (formatHeader _ _ _ _) as [h|e] eqn:Hh; [|done].
    destruct (formatHeader_ends _ _ _ _ _ Hh) as [s ->].
    by destruct s.
Qed.

(** ** Configuration *)

Lemma String_of_number_not_nil (n : N) : String_of_number n ≠ [].
Proof.
  unfold String_of_number.
  assert (H : N.to_uint n ≠ Decimal.Nil).
  { destruct n; simpl; [discriminate | apply DecimalPos.Unsigned.to_uint_nonnil]. }
  destruct (N.to_uint n); try done; by vm_compute.
Qed.

(** The year of the configuration: the configured one, or the current year
    when it is unset or empty; it is never empty. *)
Lemma getExtensionConfig_year (cfg : ConfigView) (fullYear : N) :
  year (data (getExtensionConfig cfg fullYear))
    = or_default (copyrightInserter_year cfg) (String_of_number fullYear)
  ∧ year (data (getExtensionConfig cfg fullYear)) ≠ [].
Proof.
  pose proof (String_of_number_not_nil fullYear) as Hy.
  unfold getExtensionConfig, new_CopyrightData, or_default. simpl.
  destruct (copyrightInserter_year cfg) as [[|c y]|]; simpl;
    destruct (String_of_number fullYear) eqn:E; try done;
    destruct (truthy (String_of _)); simpl; done.
Qed.

(** The holder of the configuration: the default when the configured holder
    is the empty string, the configured holder when it is another string. *)
Lemma getExtensionConfig_holder_set (cfg : ConfigView) (fullYear : N)
    (h : jsstring) :
  copyrightInserter_holder cfg = Some h →
  holder (data (getExtensionConfig cfg fullYear))
    = if truthy h then h else js "Google LLC".
Proof.
  intros Hh. unfold getExtensionConfig, new_CopyrightData. simpl.
  rewrite Hh. simpl.
  destruct (truthy h);
    by destruct (or_default _ _) as [|c y].
Qed.

(** C1 (the code departs from the claim): when the holder is not configured,
    [String(undefined)] makes the holder the text "undefined", which is
    truthy, so the default "Google LLC" of [CopyrightData] is not applied. *)
Theorem C1_unset_holder_is_undefined (cfg : ConfigView) (fullYear : N) :
  copyrightInserter_holder cfg = None →
  holder (data (getExtensionConfig cfg fullYear)) = js "undefined"
  ∧ holder (data (getExtensionConfig cfg fullYear)) ≠ js "Google LLC".
Proof.
  intros Hh.
  assert (E : holder (data (getExtensionConfig cfg fullYear)) = js "undefined").
  { unfold getExtensionConfig, new_CopyrightData. simpl. rewrite Hh. simpl.
    by destruct (or_default _ _) as [|c y]. }
  rewrite E. split; [done|]. by vm_compute.
Qed.

(** The failing input of C1: no holder configured, a TypeScript document. *)
Lemma C1_unset_holder_witness :
  copyrightInserter_holder
    {| copyrightInserter_license := None;
       copyrightInserter_useLineComment := None;
       copyrightInserter_holder := None;
       copyrightInserter_year := None |} = None
  ∧ (holder (data (getExtensionConfig
       {| copyrightInserter_license := None;
          copyrightInserter_useLineComment := None;
          copyrightInserter_holder := None;
          copyrightInserter_year := None |} 2024)) = js "undefined"
     ∧ holder (data (getExtensionConfig
       {| copyrightInserter_license := None;
          copyrightInserter_useLineComment := None;
          copyrightInserter_holder := None;
          copyrightInserter_year := None |} 2024)) ≠ js "Google LLC").
Proof.
  split; [reflexivity|].
  apply (C1_unset_holder_is_undefined
           {| copyrightInserter_license := None;
              copyrightInserter_useLineComment := None;
              copyrightInserter_holder := None;
              copyrightInserter_year := None |} 2024).
  reflexivity.
Defined.

(** The header that the failing input of C1 produces. *)
Example unset_holder_header :
  first_line_of <$> (text <$> activeTextEditor (snd (insertHeader
    (demo_host {| copyrightInserter_license := None;
                  copyrightInserter_useLineComment := Some true;
                  copyrightInserter_holder := None;
                  copyrightInserter_year := None |})
    (editing (js "typescript") (js "/src/a.ts") (js "let x = 1;")))))
  = Some (js "// Copyright 2024 undefined").
Proof. vm_compute. reflexivity. Qed.

(** ** Insertion Point Calculator *)

(** C7: the insertion line is 1 when the language is "shellscript" and the
    first line starts with "#!/", or the language is "html" and the first
    line starts with "<!doctype", whatever the declared pattern says;
    otherwise it is 1 when a first-line pattern is declared and matches the
    first line, and 0 in every other case. *)
Theorem C7_insertion_line (host : Host) (doc : TextDocument)
    (language : LanguageConfig) :
  let firstLine_text := getText doc 1 in
  let override :=
    (jseqb (id language) (js "shellscript")
       && startsWith firstLine_text (js "#!/"))
    || (jseqb (id language) (js "html")
          && startsWith firstLine_text (js "<!doctype")) in
  calculateInsertLineIndex host doc language
  = if override then 1%nat
    else match firstLine language with
         | Some re => if firstLine_test host re firstLine_text then 1%nat else 0%nat
         | None => 0%nat
         end.
Proof.
  unfold calculateInsertLineIndex. simpl.
  destruct (jseqb (id language) (js "shellscript") && _);
    destruct (jseqb (id language) (js "html") && _);
    destruct (firstLine language) as [re|]; try reflexivity;
    destruct (firstLine_test host re _); reflexivity.
Qed.

(** A shebang that the declared pattern of the shell language does not
    match is kept first all the same. *)
Example shebang_stays_first :
  calculateInsertLineIndex (demo_host default_settings)
    {| languageId := js "shellscript"; fileName := js "/bin/run.sh";
       text := js "#!/usr/bin/env bash" ++ LF :: js "echo hello" |}
    {| id := js "shellscript"; firstLine := Some (js "^#!/bin/sh");
       vsconfig := sh_style |}
  = 1%nat
  ∧ firstLine_test (demo_host default_settings) (js "^#!/bin/sh")
      (js "#!/usr/bin/env bash" ++ [LF]) = false.
Proof. vm_compute. split; reflexivity. Qed.

(** The override for html compares letter case: an upper-case doctype is
    not recognised. *)
Example doctype_case_sensitive :
  calculateInsertLineIndex (demo_host default_settings)
    {| languageId := js "html"; fileName := js "/web/index.html";
       text := js "<!DOCTYPE html>" ++ LF :: js "<html></html>" |}
    {| id := js "html"; firstLine := None; vsconfig := c_style |}
  = 0%nat
  ∧ calculateInsertLineIndex (demo_host default_settings)
      {| languageId := js "html"; fileName := js "/web/index.html";
         text := js "<!doctype html>" ++ LF :: js "<html></html>" |}
      {| id := js "html"; firstLine := None; vsconfig := c_style |}
    = 1%nat.
Proof. vm_compute. split; reflexivity. Qed.

Lemma calculateInsertLineIndex_le_1 (host : Host) (doc : TextDocument)
    (language : LanguageConfig) :
  calculateInsertLineIndex host doc language = 0%nat
  ∨ calculateInsertLineIndex host doc language = 1%nat.
Proof.
  unfold calculateInsertLineIndex.
  destruct (jseqb (id language) (js "shellscript") && _); [by right|].
  destruct (jseqb (id language) (js "html") && _); [by right|].
  destruct (firstLine language) as [re|]; [|by left].
  destruct (firstLine_test host re _); [by right | by left].
Qed.

(** ** Orchestrator: the edit *)

Lemma insert_at_line_0 (t s : jsstring) : insert_at_line 0 t s = t ++ s.
Proof. by destruct s. Qed.

Lemma insert_at_line_no_LF (n : nat) (t s : jsstring) :
  LF ∉ s → insert_at_line (S n) t s = s ++ t.
Proof.
  induction s as [|c r IH]; simpl; [done|].
  intros [Hc Hr]%not_elem_of_cons.
  destruct (N.eqb_spec c LF); [congruence|]. by rewrite IH.
Qed.

Lemma lineCount_1 (doc : TextDocument) :
  lineCount doc = 1%nat ↔ LF ∉ text doc.
Proof.
  unfold lineCount. generalize (text doc). intros s.
  induction s as [|c r IH]; simpl.
  - split; [intros _; apply not_elem_of_nil | done].
  - rewrite not_elem_of_cons. destruct (N.eqb_spec c LF) as [->|Hc]; simpl.
    + split; [lia | tauto].
    + rewrite IH. split; [|tauto]. intros H. split; [congruence | done].
Qed.

Lemma lineCount_pos (doc : TextDocument) : (1 ≤ lineCount doc)%nat.
Proof. unfold lineCount. lia. Qed.

(** What a run that inserts a header does. *)
Lemma insertHeader_Inserted (host : Host) (w w' : World) (startLine : nat)
    (header : jsstring) :
  insertHeader host w = (Inserted startLine header, w') →
  ∃ template doc language cache formatted,
    CopyrightMap
      !! license (getExtensionConfig (configView host) (getFullYear host))
      = Some template
    ∧ activeTextEditor w = Some doc
    ∧ getLanguageConfigById host (cachedLanguageConfigs w)
        (languageId doc) (fileName doc) = (Ok (Some language), cache)
    ∧ hasCopyright host doc (comments (vsconfig language)) = Ok false
    ∧ startLine = calculateInsertLineIndex host doc language
    ∧ formatHeader template
        (data (getExtensionConfig (configView host) (getFullYear host)))
        (vsconfig language)
        (useLineComment (getExtensionConfig (configView host) (getFullYear host)))
      = Ok formatted
    ∧ header = (if (startLine =? lineCount doc)%nat
                then LF :: formatted else formatted)
    ∧ w' = {| cachedLanguageConfigs := cache;
              activeTextEditor := Some (insert doc startLine header) |}.
Proof.
  unfold insertHeader.
  destruct (CopyrightMap !! _) as [t|] eqn:Ht; [|done].
  destruct (activeTextEditor w) as [doc|]; [|done].
  destruct (getLanguageConfigById _ _ _ _) as [[[lang|]|e] cache] eqn:Hl;
    try done.
  destruct (hasCopyright _ _ _) as [[]|e] eqn:Hc; try done.
  destruct (formatHeader _ _ _ _) as [h|e] eqn:Hh; [|done].
  destruct (negb (truthy h)); [done|].
  intros [= <- <- <-]. by exists t, doc, lang, cache, h.
Qed.

(** C9 (as amended): the text inserted is the result of [formatHeader],
    prefixed with a line break exactly when the insertion line computed by
    [calculateInsertLineIndex] equals the line count of the document, which
    happens exactly for a document of one line whose line stays first
    (insertion line 1): the header is then added after that line, on a line
    of its own.  In every other case, so for a document of one line with
    insertion line 0, the result of [formatHeader] is inserted as it is; at
    line 0 it is put in front of the text. *)
Theorem C9_leading_newline (host : Host) (w w' : World) (doc : TextDocument)
    (startLine : nat) (header : jsstring) :
  activeTextEditor w = Some doc →
  insertHeader host w = (Inserted startLine header, w') →
  ∃ template language cache formatted doc',
    CopyrightMap
      !! license (getExtensionConfig (configView host) (getFullYear host))
      = Some template
    ∧ getLanguageConfigById host (cachedLanguageConfigs w)
        (languageId doc) (fileName doc) = (Ok (Some language), cache)
    ∧ formatHeader template
        (data (getExtensionConfig (configView host) (getFullYear host)))
        (vsconfig language)
        (useLineComment (getExtensionConfig (configView host) (getFullYear host)))
      = Ok formatted
    ∧ startLine = calculateInsertLineIndex host doc language
    ∧ activeTextEditor w' = Some doc'
    ∧ header = (if (startLine =? lineCount doc)%nat
                then LF :: formatted else formatted)
    ∧ (startLine = lineCount doc ↔ lineCount doc = 1%nat ∧ startLine = 1%nat)
    ∧ (startLine = lineCount doc →
       header = LF :: formatted ∧ text doc' = text doc ++ LF :: formatted)
    ∧ (startLine ≠ lineCount doc → header = formatted)
    ∧ (startLine = 0%nat →
       header = formatted ∧ text doc' = formatted ++ text doc).
Proof.
  intros Hdoc Hrun.
  apply insertHeader_Inserted in Hrun
    as (t & d & lang & cache & h & Ht & Hd & Hl & _ & Hs & Hf & Hh & ->).
  rewrite Hdoc in Hd. injection Hd as <-.
  exists t, lang, cache, h, (insert doc startLine header).
  do 5 (split; [done|]). split; [done|].
  pose proof (lineCount_pos doc) as Hpos.
  pose proof (calculateInsertLineIndex_le_1 host doc lang) as Hle.
  rewrite <- Hs in Hle.
  split; [lia|]. split; [|split].
  - intros E. assert (H1 : lineCount doc = 1%nat) by lia.
    assert (Hh' : header = LF :: h)
      by (by rewrite Hh, <- E, Nat.eqb_refl).
    split; [done|]. rewrite Hh'. cbn [insert text].
    rewrite E, H1. apply insert_at_line_no_LF. by apply lineCount_1.
  - intros Hne. rewrite Hh.
    by destruct (Nat.eqb_spec startLine (lineCount doc)).
  - intros E0.
    assert (Hh' : header = h).
    { rewrite Hh, E0. by destruct (Nat.eqb_spec 0 (lineCount doc)); [lia|]. }
    split; [done|]. rewrite Hh', E0. cbn [insert text].
    apply insert_at_line_0.
Qed.

(** C9 at the script of one line: the insertion line is 1, the line count
    is 1, and the header follows the line after a line break. *)
Lemma C9_leading_newline_witness :
  activeTextEditor script_session = Some one_line_script
  ∧ insertHeader (demo_host default_settings) script_session
    = (Inserted 1
         (inserted_header
            (fst (insertHeader (demo_host default_settings) script_session))),
       snd (insertHeader (demo_host default_settings) script_session))
  ∧ ∃ template language cache formatted doc',
      CopyrightMap
        !! license (getExtensionConfig
                      (configView (demo_host default_settings))
                      (getFullYear (demo_host default_settings)))
        = Some template
      ∧ getLanguageConfigById (demo_host default_settings)
          (cachedLanguageConfigs script_session)
          (languageId one_line_script) (fileName one_line_script)
        = (Ok (Some language), cache)
      ∧ formatHeader template
          (data (getExtensionConfig
                   (configView (demo_host default_settings))
                   (getFullYear (demo_host default_settings))))
          (vsconfig language)
          (useLineComment
             (getExtensionConfig
                (configView (demo_host default_settings))
                (getFullYear (demo_host default_settings))))
        = Ok formatted
      ∧ 1%nat = calculateInsertLineIndex (demo_host default_settings)
                  one_line_script language
      ∧ activeTextEditor
          (snd (insertHeader (demo_host default_settings) script_session))
        = Some doc'
      ∧ inserted_header
          (fst (insertHeader (demo_host default_settings) script_session))
        = (if (1 =? lineCount one_line_script)%nat
           then LF :: formatted else formatted)
      ∧ (1%nat = lineCount one_line_script
         ↔ lineCount one_line_script = 1%nat ∧ 1%nat = 1%nat)
      ∧ (1%nat = lineCount one_line_script →
         inserted_header
           (fst (insertHeader (demo_host default_settings) script_session))
         = LF :: formatted
         ∧ text doc' = text one_line_script ++ LF :: formatted)
      ∧ (1%nat ≠ lineCount one_line_script →
         inserted_header
           (fst (insertHeader (demo_host default_settings) script_session))
         = formatted)
      ∧ (1%nat = 0%nat →
         inserted_header
           (fst (insertHeader (demo_host default_settings) script_session))
         = formatted
         ∧ text doc' = formatted ++ text one_line_script).
Proof.
  split; [reflexivity|].
  split; [vm_compute; reflexivity|].
  apply (C9_leading_newline (demo_host default_settings) script_session
           (snd (insertHeader (demo_host default_settings) script_session))
           one_line_script 1
           (inserted_header
              (fst (insertHeader (demo_host default_settings) script_session)))).
  - reflexivity.
  - vm_compute. reflexivity.
Defined.

(** C9, the claim as stated fails: a document of one line whose line is not
    kept first gets the header at line 0 without a leading line break. *)
Lemma C9_one_line_counterexample :
  let w := editing (js "typescript") (js "/src/a.ts") (js "let x = 1;") in
  let run := insertHeader (demo_host default_settings) w in
  (lineCount <$> activeTextEditor w) = Some 1%nat
  ∧ fst run = Inserted 0 (inserted_header (fst run))
  ∧ startsWith (inserted_header (fst run)) [LF] = false
  ∧ document_text (snd run)
    = Some (inserted_header (fst run) ++ js "let x = 1;").
Proof. vm_compute. repeat split; reflexivity. Qed.

(** ** Comment-Style Resolver: loading a configuration *)

Lemma blank_comments_loop_take (n : nat) (lines : list jsstring) :
  (n ≤ length lines)%nat →
  blank_comments_loop n lines
  = List.map blank_comment (take n lines) ++ drop n lines.
Proof.
  revert lines. induction n as [|i IH]; intros lines Hn;
    cbn [blank_comments_loop].
  - by rewrite drop_0.
  - destruct (lookup_lt_is_Some_2 lines i) as [l Hl]; [lia|].
    rewrite Hl. cbv beta iota.
    assert (E : (if startsWith (trimStart l) (js "//")
                 then <[i := [CR]]> lines else lines)
                = <[i := blank_comment l]> lines).
    { unfold blank_comment. destruct (startsWith _ _); [done|].
      by rewrite list_insert_id. }
    rewrite E, IH by (rewrite length_insert; lia).
    rewrite take_insert_ge by lia.
    rewrite (take_S_r lines i l Hl), List.map_app, <- app_assoc. simpl.
    f_equal. rewrite drop_insert_ge by lia.
    rewrite Nat.sub_diag. rewrite (drop_S lines l i Hl). done.
Qed.

(** The loop blanks every comment line and keeps the others. *)
Lemma blank_comments_loop_map (lines : list jsstring) :
  blank_comments_loop (length lines) lines = List.map blank_comment lines.
Proof.
  rewrite blank_comments_loop_take by done.
  by rewrite take_ge, drop_ge, app_nil_r.
Qed.

Lemma trimRight_cons_cases (c : jschar) (r : jsstring) :
  (trimRight (c :: r) = [] ∧ is_white c = true)
  ∨ trimRight (c :: r) = c :: trimRight r.
Proof.
  simpl. destruct (trimRight r); destruct (is_white c); auto.
Qed.

(** Stripping trailing white space does not change whether a text starts
    with a given word without white space. *)
Lemma startsWith_trimRight (s p : jsstring) :
  forallb (fun x => negb (is_white x)) p = true →
  startsWith (trimRight s) p = startsWith s p.
Proof.
  revert s. induction p as [|x p IH]; intros s Hp; [done|].
  simpl in Hp. apply andb_true_iff in Hp as [Hx Hp].
  destruct s as [|c r]; [done|].
  destruct (trimRight_cons_cases c r) as [[E Hc]|E]; rewrite E.
  - simpl. destruct (N.eqb_spec c x) as [->|]; [|done].
    rewrite Hc in Hx. done.
  - simpl. by rewrite IH.
Qed.

(** A line is blanked when its trimmed content starts with [//]. *)
Lemma blank_comment_trim (line : jsstring) :
  blank_comment line = if startsWith (trim line) (js "//") then [CR] else line.
Proof.
  unfold blank_comment, trim. by rewrite startsWith_trimRight.
Qed.

(** An error of the search for a language configuration reaches the caller
    of the command, and leaves the session as it was. *)
Lemma insertHeader_scan_error (host : Host) (w : World) (doc : TextDocument)
    (e : js_error) :
  let fileExt := toLowerCase host (extname host (fileName doc)) in
  is_Some (CopyrightMap
    !! license (getExtensionConfig (configView host) (getFullYear host))) →
  activeTextEditor w = Some doc →
  cachedLanguageConfigs w !! cache_key (languageId doc) fileExt = None →
  scan_extensions host (languageId doc) fileExt (extensions_all host) = Throw e →
  insertHeader host w = (Uncaught e, w).
Proof.
  intros fileExt [t Ht] Hdoc Hmiss Hscan. unfold insertHeader.
  rewrite Ht, Hdoc. unfold getLanguageConfigById. fold fileExt.
  rewrite Hmiss, Hscan. by destruct w; simpl in *; subst.
Qed.

(** ** Comment-Style Resolver: the search *)

Lemma indexOf_elem_of (x : jsstring) (l : list jsstring) :
  (0 <=? indexOf x l)%Z = bool_decide (x ∈ l).
Proof.
  assert (H : (indexOf x l = (-1)%Z ∧ x ∉ l)
              ∨ ((0 ≤ indexOf x l)%Z ∧ x ∈ l)).
  { induction l as [|y r IH]; simpl.
    - left. split; [done | apply not_elem_of_nil].
    - unfold jseqb. case_bool_decide as Hy.
      + right. subst. split; [done | left].
      + destruct IH as [[E Hn]|[E Hin]].
        * left. rewrite E. simpl. split; [done|].
          apply not_elem_of_cons. split; [congruence | done].
        * right. destruct (Z.ltb_spec (indexOf x r) 0); [lia|].
          split; [lia | by right]. }
  destruct H as [[E Hn]|[E Hin]].
  - rewrite E. by rewrite bool_decide_eq_false_2.
  - rewrite bool_decide_eq_true_2 by done. by apply Z.leb_le.
Qed.

Lemma language_matches_declared (id fileExt : jsstring)
    (it : Contributes.language) :
  (Contributes.id it = id → is_Some (Contributes.extensions it)) →
  language_matches id fileExt it = Ok (matches_file id fileExt it).
Proof.
  intros Hd. unfold language_matches, matches_file, jseqb.
  case_bool_decide as Hid; [|done]. simpl.
  destruct (truthy fileExt); [|done]. simpl.
  destruct (Hd Hid) as [exts ->]. by rewrite indexOf_elem_of.
Qed.

Lemma find_total {A} (p : A → result bool) (q : A → bool) (l : list A) :
  Forall (fun x => p x = Ok (q x)) l → find p l = Ok (List.find q l).
Proof.
  induction 1 as [|x l Hx _ IH]; simpl; [done|].
  rewrite Hx. simpl. by destruct (q x).
Qed.

Lemma find_app {A} (q : A → bool) (l1 l2 : list A) :
  List.find q (l1 ++ l2)
  = match List.find q l1 with
    | Some x => Some x
    | None => List.find q l2
    end.
Proof.
  induction l1 as [|x l1 IH]; simpl; [done|]. by destruct (q x).
Qed.

Lemma find_map_pair {A B} (e : A) (q : B → bool) (l : list B) :
  List.find (fun p => q (snd p)) (List.map (pair e) l)
  = pair e <$> List.find q l.
Proof.
  induction l as [|x l IH]; simpl; [done|]. by destruct (q x).
Qed.

(** [List.find] returns the first element that passes the test. *)
Lemma find_first {A} (q : A → bool) (l : list A) :
  match List.find q l with
  | Some x =>
      ∃ before after,
        l = before ++ x :: after ∧ q x = true
        ∧ Forall (fun y => q y = false) before
  | None => Forall (fun y => q y = false) l
  end.
Proof.
  induction l as [|x l IH]; simpl; [done|].
  destruct (q x) eqn:Hx.
  - by exists [], l.
  - destruct (List.find q l) as [y|].
    + destruct IH as (before & after & -> & Hy & Hb).
      exists (x :: before), after. repeat split; [done|]. by constructor.
    + by constructor.
Qed.

(** The loop over the extensions finds the first definition, in the order
    of the host, that passes the test of the scan. *)
Lemma scan_extensions_first_match (host : Host) (id fileExt : jsstring)
    (all : list Extension) :
  extensions_declared id all →
  scan_extensions host id fileExt all
  = match first_match id fileExt all with
    | Some (extension, data) =>
        let! config := make_config host id extension data in
        Ok (Some config)
    | None => Ok None
    end.
Proof.
  unfold extensions_declared, first_match.
  induction all as [|e rest IH]; simpl; [done|].
  rewrite Forall_app. intros [He Hrest]. rewrite find_app.
  destruct (languages e) as [ls|]; simpl; [|by apply IH].
  rewrite find_map_pair.
  rewrite (find_total _ (matches_file id fileExt)).
  - simpl. destruct (List.find (matches_file id fileExt) ls); simpl;
      [done | by apply IH].
  - apply Forall_forall. intros it Hit.
    apply language_matches_declared.
    rewrite Forall_forall in He. apply (He (e, it)).
    apply list_elem_of_fmap. by exists it.
Qed.

(** C2 (as amended): on a cache miss the resolver returns the configuration
    built from the first installed language definition, in the order of the
    host, whose id equals [languageId] and for which the lowercased
    extension of the file is empty or is listed by the definition; it
    stores that configuration in the cache; when no definition passes, it
    returns [undefined].  (Every definition of the language is taken to
    declare a list of extensions.) *)
Theorem C2_resolve_on_miss (host : Host)
    (cache : gmap jsstring LanguageConfig) (id fileName : jsstring) :
  cache !! cache_key id (toLowerCase host (extname host fileName)) = None →
  extensions_declared id (extensions_all host) →
  getLanguageConfigById host cache id fileName
  = match first_match id (toLowerCase host (extname host fileName))
            (extensions_all host) with
    | Some (extension, data) =>
        match make_config host id extension data with
        | Ok config =>
            (Ok (Some config),
             <[cache_key id (toLowerCase host (extname host fileName))
                 := config]> cache)
        | Throw e => (Throw e, cache)
        end
    | None => (Ok None, cache)
    end
  ∧ match first_match id (toLowerCase host (extname host fileName))
            (extensions_all host) with
    | Some p =>
        ∃ before after,
          all_languages (extensions_all host) = before ++ p :: after
          ∧ matches_file id (toLowerCase host (extname host fileName)) (snd p)
            = true
          ∧ Forall
              (fun q => matches_file id
                          (toLowerCase host (extname host fileName)) (snd q)
                        = false)
              before
    | None =>
        Forall
          (fun q => matches_file id
                      (toLowerCase host (extname host fileName)) (snd q)
                    = false)
          (all_languages (extensions_all host))
    end.
Proof.
  intros Hmiss Hdecl. split.
  - unfold getLanguageConfigById. rewrite Hmiss.
    rewrite scan_extensions_first_match by done.
    destruct (first_match _ _ _) as [[extension data]|]; [|done].
    by destruct (make_config host id extension data).
  - unfold first_match.
    apply (find_first
             (fun p => matches_file id
                         (toLowerCase host (extname host fileName)) (snd p))).
Qed.

(** C2 on the concrete host: a TypeScript file and an empty cache. *)
Lemma C2_resolve_on_miss_witness :
  (∅ : gmap jsstring LanguageConfig)
    !! cache_key (js "typescript")
         (toLowerCase (demo_host default_settings)
            (extname (demo_host default_settings) (js "/src/a.TS"))) = None
  ∧ extensions_declared (js "typescript")
      (extensions_all (demo_host default_settings))
  ∧ fst (getLanguageConfigById (demo_host default_settings) ∅
           (js "typescript") (js "/src/a.TS"))
    = Ok (Some {| id := js "typescript"; firstLine := None;
                  vsconfig := c_style |}).
Proof.
  assert (Hmiss : (∅ : gmap jsstring LanguageConfig)
    !! cache_key (js "typescript")
         (toLowerCase (demo_host default_settings)
            (extname (demo_host default_settings) (js "/src/a.TS"))) = None)
    by reflexivity.
  assert (Hdecl : extensions_declared (js "typescript")
                    (extensions_all (demo_host default_settings))).
  { unfold extensions_declared. by_decide. }
  split; [exact Hmiss|]. split; [exact Hdecl|].
  destruct (C2_resolve_on_miss (demo_host default_settings) ∅
              (js "typescript") (js "/src/a.TS") Hmiss Hdecl) as [-> _].
  vm_compute. reflexivity.
Defined.

(** C2, the claim as stated fails in both directions.  A file without
    extension: the code returns the definition of makefiles, whose list of
    extensions is neither empty nor holds the empty extension.  A file with
    an extension and a definition with an empty list: the code returns
    [undefined]. *)
Lemma C2_extension_list_counterexample :
  fst (getLanguageConfigById build_tools_host ∅
         (js "makefile") (js "/src/Makefile"))
    = Ok (Some {| id := js "makefile"; firstLine := None;
                  vsconfig := sh_style |})
  ∧ first_match_as_specified (js "makefile") [] build_tools = None
  ∧ fst (getLanguageConfigById build_tools_host ∅
           (js "dockerfile") (js "/src/app.dockerfile"))
    = Ok None
  ∧ is_Some (first_match_as_specified (js "dockerfile") (js ".dockerfile")
               build_tools).
Proof.
  split; [vm_compute; reflexivity|].
  split; [vm_compute; reflexivity|].
  split; [vm_compute; reflexivity|].
  vm_compute. eexists. reflexivity.
Qed.

(** ** Comment-Style Resolver: errors of a load *)

(** C8: a configuration is first loaded by the strict parser; when, and
    only when, that fails with a syntax error, the file is read, every line
    whose trimmed content starts with [//] is blanked (replaced by a carriage
    return), and the text is parsed as strict JSON; every other error of the
    strict load is thrown again, goes through the search for the language
    unchanged, and ends the command without a change to the session. *)
Theorem C8_load_configuration (host : Host) (uri : jsstring) :
  (∀ v, require host uri = Ok v → loadLanguageConfiguration host uri = Ok v)
  ∧ (require host uri = Throw SyntaxError →
     loadLanguageConfiguration host uri
     = let! content := readFileSync host uri in
       JSON_parse host (join LF (List.map blank_comment (split LF content))))
  ∧ (∀ line, blank_comment line
             = if startsWith (trim line) (js "//") then [CR] else line)
  ∧ (∀ e, require host uri = Throw e → e ≠ SyntaxError →
     loadLanguageConfiguration host uri = Throw e
     ∧ ∀ w doc extension data first c,
         is_Some (CopyrightMap
           !! license (getExtensionConfig (configView host) (getFullYear host))) →
         activeTextEditor w = Some doc →
         cachedLanguageConfigs w
           !! cache_key (languageId doc)
                (toLowerCase host (extname host (fileName doc))) = None →
         extensions_declared (languageId doc) (extensions_all host) →
         first_match (languageId doc)
           (toLowerCase host (extname host (fileName doc)))
           (extensions_all host) = Some (extension, data) →
         compile_firstLine host data = Ok first →
         Contributes.configuration data = Some c →
         path_join host (extensionPath extension) c = uri →
         insertHeader host w = (Uncaught e, w)).
Proof.
  split; [|split; [|split]].
  - intros v Hv. unfold loadLanguageConfiguration. by rewrite Hv.
  - intros Hr. unfold loadLanguageConfiguration. rewrite Hr. simpl.
    destruct (readFileSync host uri) as [content|e]; [|done]. simpl.
    by rewrite blank_comments_loop_map.
  - apply blank_comment_trim.
  - intros e Hr He.
    assert (Hload : loadLanguageConfiguration host uri = Throw e).
    { unfold loadLanguageConfiguration. rewrite Hr. by destruct e. }
    split; [done|].
    intros w doc extension data first c Hlic Hdoc Hmiss Hdecl Hmatch Hfirst Hc
      Hpath.
    apply (insertHeader_scan_error host w doc e Hlic Hdoc Hmiss).
    rewrite scan_extensions_first_match by done. rewrite Hmatch.
    unfold make_config. by rewrite Hfirst, Hc, Hpath, Hload.
Qed.

(** A run on the host whose TypeScript configuration cannot be read: the
    error of [require] ends the command and the document stays as it is. *)
Example unreadable_configuration :
  insertHeader broken_host
    (editing (js "typescript") (js "/src/a.ts") (js "let x = 1;"))
  = (Uncaught (OtherError 2),
     editing (js "typescript") (js "/src/a.ts") (js "let x = 1;")).
Proof. vm_compute. reflexivity. Qed.

(** A load that falls back to the second parse. *)
Example commented_configuration :
  loadLanguageConfiguration commented_host (js "/ext/web/typescript.json")
  = Ok c_style.
Proof. vm_compute. reflexivity. Qed.


(** ** Header Presence Detector: the patterns *)

Lemma parse_escaped_char (pending : option single) (c : jschar)
    (rest : jsstring) :
  parse_from pending false
    ((if is_escaped_char c then [92; c] else [c]) ++ rest)
  = emit pending <$> parse_from (Some (SChar c)) false rest.
Proof.
  destruct (is_escaped_char c) eqn:Hc.
  - simpl. by rewrite Hc.
  - unfold is_escaped_char, is_syntax_char in Hc.
    repeat match goal with
           | H : (_ || _) = false |- _ => apply orb_false_iff in H as [? ?]
           end.
    simpl. unfold is_syntax_char.
    repeat match goal with H : (c =? _) = false |- _ => rewrite H; clear H end.
    reflexivity.
Qed.

Lemma parse_escaped_token (pending : option single) (token : jsstring) :
  parse_from pending false (escapeStringForRegexp token ++ js ".*Copyright")
  = Some (emit pending
            (List.map literal token
               ++ IStar SDot :: List.map literal (js "Copyright"))).
Proof.
  revert pending. induction token as [|c token IH]; intros pending.
  - destruct pending; reflexivity.
  - unfold escapeStringForRegexp. simpl flat_map. rewrite <- app_assoc.
    rewrite parse_escaped_char.
    fold (escapeStringForRegexp token). by rewrite IH.
Qed.

(** Every pattern of [hasCopyright] lies in the fragment: the escaped token
    is read back as the token itself. *)
Lemma parse_copyright_pattern (token : jsstring) :
  parse (copyright_pattern (escapeStringForRegexp token))
  = Some (copyright_regex token).
Proof.
  unfold parse, copyright_pattern, copyright_regex.
  change (js "^" ++ ?x) with (94 :: x).
  cbn [parse_from]. change (94 =? 92) with false. change (94 =? 42) with false.
  change (94 =? 94) with true. cbv iota.
  by rewrite parse_escaped_token.
Qed.

Section MatcherFacts.
Variable up : jschar -> jschar.
Variable f : Flags.

Lemma prev_after_nil (prev : option jschar) : prev_after prev [] = prev.
Proof. done. Qed.

Lemma prev_after_cons (prev : option jschar) (c : jschar) (w : jsstring) :
  prev_after prev (c :: w) = prev_after (Some c) w.
Proof.
  unfold prev_after. destruct w as [|d w]; [done|]. simpl.
  destruct (last (d :: w)) eqn:E; [done|]. by apply last_None in E.
Qed.

Lemma prev_after_app (prev : option jschar) (a b : jsstring) :
  prev_after prev (a ++ b) = prev_after (prev_after prev a) b.
Proof.
  revert prev. induction a as [|c a IH]; intros prev; [done|].
  simpl. by rewrite !prev_after_cons, IH.
Qed.

Lemma match_here_star (a : single) (re : list item) (prev : option jschar)
    (s : jsstring) :
  match_here up f (IStar a :: re) prev s
  = match_here up f re prev s
    || match s with
       | c :: s' =>
           single_matches up f a c
           && match_here up f (IStar a :: re) (Some c) s'
       | [] => false
       end.
Proof. by destruct s. Qed.

(** Literal items read a text equal to theirs. *)
Lemma match_here_literals (w : jsstring) (re : list item)
    (prev : option jschar) (s : jsstring) :
  match_here up f (List.map literal w ++ re) prev s = true
  ↔ ∃ w' s', s = w' ++ s' ∧ same_text up f w' w
             ∧ match_here up f re (prev_after prev w') s' = true.
Proof.
  revert prev s. induction w as [|p w IH]; intros prev s.
  - split.
    + intros H. exists [], s. repeat split; [constructor | done].
    + intros (w' & s' & -> & Hw & H). inversion Hw; subst. done.
  - cbn [List.map app literal match_here]. destruct s as [|c s].
    + split; [done|]. intros (w' & s' & E & Hw & _).
      inversion Hw; subst. done.
    + rewrite andb_true_iff, IH. cbn [single_matches]. rewrite N.eqb_eq.
      split.
      * intros (Hc & w' & s' & -> & Hw & H).
        exists (c :: w'), s'. rewrite prev_after_cons.
        repeat split; [by constructor | done].
      * intros (w' & s' & E & Hw & H).
        inversion Hw as [|c' p' w'' w0 Hc Hw']; subst.
        injection E as -> ->. rewrite prev_after_cons in H.
        split; [done|]. by exists w'', s'.
Qed.

(** The starred wildcard reads any run of characters that the wildcard
    accepts. *)
Lemma match_here_star_dot (re : list item) (prev : option jschar)
    (s : jsstring) :
  match_here up f (IStar SDot :: re) prev s = true
  ↔ ∃ mid s', s = mid ++ s'
              ∧ Forall (fun c => single_matches up f SDot c = true) mid
              ∧ match_here up f re (prev_after prev mid) s' = true.
Proof.
  revert prev. induction s as [|c s IH]; intros prev;
    rewrite match_here_star, orb_true_iff.
  - split.
    + intros [H|H]; [|done]. exists [], []. by repeat split.
    + intros (mid & s' & E & Hm & H). left.
      symmetry in E. apply app_eq_nil in E as [-> ->]. done.
  - rewrite andb_true_iff, IH. split.
    + intros [H|(Hc & mid & s' & -> & Hm & H)].
      * exists [], (c :: s). by repeat split.
      * exists (c :: mid), s'. rewrite prev_after_cons.
        repeat split; [by constructor | done].
    + intros (mid & s' & E & Hm & H). destruct mid as [|d mid].
      * left. simpl in E. by subst.
      * right. injection E as -> ->. inversion Hm; subst.
        rewrite prev_after_cons in H. split; [done|]. by exists mid, s'.
Qed.

(** A search succeeds when the pattern matches at some position. *)
Lemma search_spec (re : list item) (prev : option jschar) (s : jsstring) :
  search up f re prev s = true
  ↔ ∃ before s', s = before ++ s'
                 ∧ match_here up f re (prev_after prev before) s' = true.
Proof.
  revert prev. induction s as [|c s IH]; intros prev;
    cbn [search]; rewrite orb_true_iff.
  - split.
    + intros [H|H]; [|done]. by exists [], [].
    + intros (before & s' & E & H). left.
      symmetry in E. apply app_eq_nil in E as [-> ->]. done.
  - rewrite IH. split.
    + intros [H|(before & s' & -> & H)].
      * by exists [], (c :: s).
      * exists (c :: before), s'. by rewrite prev_after_cons.
    + intros (before & s' & E & H). destruct before as [|d before].
      * left. simpl in E. by subst.
      * right. injection E as -> ->. rewrite prev_after_cons in H.
        by exists before, s'.
Qed.

Lemma at_bol_line_start (before : jsstring) :
  multiline f = true →
  at_bol f (prev_after None before) = true ↔ at_line_start before.
Proof.
  intros Hm. unfold at_line_start, prev_after.
  destruct before as [|c before _] using rev_ind.
  - split; [by left | done].
  - rewrite last_snoc. cbn [at_bol]. rewrite Hm. simpl. split.
    + intros H. right. by exists before, c.
    + intros [E|(b & d & E & H)]; [by destruct before|].
      apply app_inj_tail in E as [_ ->]. done.
Qed.
End MatcherFacts.

(** ** Header Presence Detector *)

Section DetectorFacts.
Variable up : jschar -> jschar.

Lemma search_copyright_regex (f : Flags) (token text : jsstring) :
  multiline f = true →
  search up f (copyright_regex token) None text = true
  ↔ ∃ before tok between word after,
      text = before ++ tok ++ between ++ word ++ after
      ∧ at_line_start before
      ∧ same_text up f tok token
      ∧ same_text up f word (js "Copyright")
      ∧ Forall (fun c => single_matches up f SDot c = true) between.
Proof.
  intros Hm. unfold copyright_regex. rewrite search_spec. split.
  - intros (before & s1 & -> & H). cbn [match_here] in H.
    apply andb_true_iff in H as [Hbol H].
    apply at_bol_line_start in Hbol; [|done].
    apply match_here_literals in H as (tok & s2 & -> & Htok & H).
    apply match_here_star_dot in H as (between & s3 & -> & Hbetween & H).
    rewrite <- (app_nil_r (List.map literal (js "Copyright"))) in H.
    apply match_here_literals in H as (word & after & -> & Hword & _).
    by exists before, tok, between, word, after.
  - intros (before & tok & between & word & after & -> & Hb & Htok & Hword
            & Hbetween).
    exists before, (tok ++ between ++ word ++ after). split; [done|].
    cbn [match_here]. apply andb_true_iff. split.
    { by apply at_bol_line_start. }
    apply match_here_literals. exists tok, (between ++ word ++ after).
    repeat split; [done|].
    apply match_here_star_dot. exists between, (word ++ after).
    repeat split; [done|].
    rewrite <- (app_nil_r (List.map literal (js "Copyright"))).
    apply match_here_literals. by exists word, after.
Qed.

(** The test of a pattern of [hasCopyright], under [mis] when [spanning]
    and under [mi] otherwise. *)
Lemma test_copyright_pattern (spanning : bool) (token text : jsstring) :
  RegExp_test up (copyright_pattern (escapeStringForRegexp token))
    {| multiline := true; ignoreCase := true; dotAll := spanning |} text
  = true
  ↔ copyright_after up spanning token text.
Proof.
  unfold RegExp_test. rewrite parse_copyright_pattern.
  rewrite search_copyright_regex by done. unfold copyright_after.
  split.
  - intros (before & tok & between & word & after & E & Hb & Ht & Hw & Hm).
    exists before, tok, between, word, after. repeat split; try done.
    intros ->. unfold on_one_line. eapply Forall_impl; [exact Hm|].
    intros c Hc. simpl in Hc. by apply negb_true_iff in Hc.
  - intros (before & tok & between & word & after & E & Hb & Ht & Hw & Hm).
    exists before, tok, between, word, after. repeat split; try done.
    destruct spanning.
    + by apply Forall_true.
    + eapply Forall_impl; [exact (Hm eq_refl)|].
      intros c Hc. simpl. by rewrite Hc.
Qed.
End DetectorFacts.

(** C5 (as amended): on a comment rule [hasCopyright] returns, and returns
    true exactly when (a) a block comment is defined and a line of the text
    begins with its opener, the word Copyright coming later, possibly on a
    later line, or (b) a line-comment token is defined and is not the empty
    string, and a line begins with the token, the word Copyright coming
    later on that line; letter case is ignored throughout. *)
Theorem C5_hasCopyright (host : Host) (doc : TextDocument) (c : CommentRule) :
  ∃ b,
    hasCopyright host doc (Some c) = Ok b
    ∧ (b = true
       ↔ (∃ bc0 bc1, blockComment c = Some (bc0, bc1)
            ∧ copyright_after (upper1 host) true bc0 (getText doc 10))
         ∨ (∃ l, lineComment c = Some l ∧ l ≠ []
              ∧ copyright_after (upper1 host) false l (getText doc 10))).
Proof.
  unfold hasCopyright.
  set (block := match blockComment c with
                | Some (bc0, _) => RegExp_test _ _ _ _
                | None => false
                end).
  set (line := match lineComment_token c with
               | Some l => RegExp_test _ _ _ _
               | None => false
               end).
  assert (Hblock : block = true
    ↔ ∃ bc0 bc1, blockComment c = Some (bc0, bc1)
        ∧ copyright_after (upper1 host) true bc0 (getText doc 10)).
  { unfold block. destruct (blockComment c) as [[bc0 bc1]|].
    - rewrite (test_copyright_pattern (upper1 host) true). split.
      + intros H. by exists bc0, bc1.
      + by intros (? & ? & [= <- <-] & H).
    - split; [done | by intros (? & ? & ? & _)]. }
  assert (Hline : line = true
    ↔ ∃ l, lineComment c = Some l ∧ l ≠ []
        ∧ copyright_after (upper1 host) false l (getText doc 10)).
  { unfold line, lineComment_token.
    destruct (lineComment c) as [l|]; [|split; [done | by intros (? & ? & _)]].
    destruct l as [|x l]; cbn [truthy].
    - split; [done | by intros (? & [= <-] & ? & _)].
    - rewrite (test_copyright_pattern (upper1 host) false). split.
      + intros H. by exists (x :: l).
      + by intros (? & [= <-] & _ & H). }
  destruct block.
  - exists true. split; [done|]. split; [|done]. intros _. left. by apply Hblock.
  - destruct line.
    + exists true. split; [done|]. split; [|done]. intros _. right.
      by apply Hline.
    + exists false. split; [done|]. split; [done|].
      intros [H|H]; [by apply Hblock in H | by apply Hline in H].
Qed.

(** C5, the claim as stated fails for a line-comment token that is defined
    as the empty string: every line begins with it and the first line holds
    the word Copyright, yet [hasCopyright] returns false, because the empty
    token is falsy. *)
Lemma C5_empty_token_counterexample :
  hasCopyright (demo_host default_settings) plain_notice
    (Some empty_token_rule) = Ok false
  ∧ lineComment empty_token_rule = Some []
  ∧ copyright_after ascii_upper false [] (getText plain_notice 10).
Proof.
  split; [vm_compute; reflexivity|]. split; [reflexivity|].
  exists [], [], [], (js "Copyright"), (js " 2020 Example Corp").
  split; [vm_compute; reflexivity|]. split; [by left|].
  split; [constructor|]. split.
  - vm_compute. repeat constructor.
  - intros _. constructor.
Qed.

(** A header in line comments is found (the seventh testable property of
    the specification). *)
Example detects_line_comment_header :
  hasCopyright (demo_host default_settings)
    {| languageId := js "typescript"; fileName := js "/src/a.ts";
       text := js "// copyright 2020 Example Corp" ++ LF :: js "let x = 1;" |}
    (comments c_style) = Ok true.
Proof. vm_compute. reflexivity. Qed.

(** ** Orchestrator: running the command twice *)

Lemma count_LF_app (a b : jsstring) :
  count_LF (a ++ b) = (count_LF a + count_LF b)%nat.
Proof. unfold count_LF. by rewrite List.filter_app, length_app. Qed.

Lemma count_LF_0 (s : jsstring) : LF ∉ s → count_LF s = 0%nat.
Proof.
  unfold count_LF. induction s as [|c s IH]; [done|].
  intros [Hc Hs]%not_elem_of_cons. simpl.
  destruct (N.eqb_spec c LF); [congruence | by apply IH].
Qed.

Lemma count_LF_cons (c : jschar) (s : jsstring) :
  count_LF (c :: s) = if c =? LF then S (count_LF s) else count_LF s.
Proof. unfold count_LF. simpl. by destruct (c =? LF). Qed.

Lemma text_before_line_app (n : nat) (p r : jsstring) :
  (count_LF p < n)%nat →
  text_before_line n (p ++ r) = p ++ text_before_line (n - count_LF p) r.
Proof.
  revert n. induction p as [|c p IH]; intros n Hn.
  - simpl. by rewrite Nat.sub_0_r.
  - destruct n as [|m]; [lia|]. rewrite count_LF_cons in *.
    cbn [app text_before_line]. f_equal.
    destruct (c =? LF).
    + rewrite IH by lia. done.
    + rewrite IH by lia. done.
Qed.

Lemma same_text_refl (up : jschar → jschar) (f : Flags) (s : jsstring) :
  same_text up f s s.
Proof. unfold same_text. induction s; by constructor. Qed.

(** A text in which a line begins with a token that is soon followed by the
    word Copyright passes the test of [hasCopyright] for that token. *)
Lemma copyright_in_first_lines (up : jschar → jschar) (spanning : bool)
    (before tok mid rest : jsstring) :
  at_line_start before →
  (count_LF before + count_LF tok + count_LF mid < 10)%nat →
  (spanning = false → on_one_line mid) →
  copyright_after up spanning tok
    (text_before_line 10 (before ++ tok ++ mid ++ js "Copyright" ++ rest)).
Proof.
  intros Hb Hn Hm.
  replace (before ++ tok ++ mid ++ js "Copyright" ++ rest)
    with ((before ++ tok ++ mid ++ js "Copyright") ++ rest)
    by (by rewrite <- !app_assoc).
  rewrite text_before_line_app.
  - eexists before, tok, mid, (js "Copyright"), _.
    split; [by rewrite <- !app_assoc|].
    repeat split; [done | apply same_text_refl | apply same_text_refl | done].
  - rewrite !count_LF_app. change (count_LF (js "Copyright")) with 0%nat. lia.
Qed.

Lemma hasCopyright_block_found (host : Host) (doc : TextDocument)
    (c : CommentRule) (bc0 bc1 : jsstring) :
  blockComment c = Some (bc0, bc1) →
  copyright_after (upper1 host) true bc0 (getText doc 10) →
  hasCopyright host doc (Some c) = Ok true.
Proof.
  intros Hb H. unfold hasCopyright. rewrite Hb.
  apply (test_copyright_pattern (upper1 host) true) in H.
  unfold flags_mis. by rewrite H.
Qed.

Lemma hasCopyright_line_found (host : Host) (doc : TextDocument)
    (c : CommentRule) (l : jsstring) :
  lineComment_token c = Some l →
  copyright_after (upper1 host) false l (getText doc 10) →
  hasCopyright host doc (Some c) = Ok true.
Proof.
  intros Hl H. unfold hasCopyright. rewrite Hl.
  apply (test_copyright_pattern (upper1 host) false) in H.
  unfold flags_mi. rewrite H.
  destruct (blockComment c) as [[bc0 bc1]|]; [|done].
  by destruct (RegExp_test _ _ flags_mis _).
Qed.

(** Every license body starts with the word Copyright. *)
Lemma template_starts_with_Copyright (k : jsstring)
    (template : LicenseTemplate) (holder year : jsstring) :
  CopyrightMap !! k = Some template →
  ∃ r, template holder year = js "Copyright" ++ r.
Proof.
  intros H. apply startsWith_app. revert H. unfold CopyrightMap.
  cbn [list_to_map foldr fst snd uncurry].
  destruct (decide (js "apache" = k)) as [<-|H1];
    [rewrite lookup_insert_eq; by intros [= <-]|].
  rewrite lookup_insert_ne by done.
  destruct (decide (js "bsd" = k)) as [<-|H2];
    [rewrite lookup_insert_eq; by intros [= <-]|].
  rewrite lookup_insert_ne by done.
  destruct (decide (js "mit" = k)) as [<-|H3];
    [rewrite lookup_insert_eq; by intros [= <-]|].
  rewrite lookup_insert_ne by done.
  destruct (decide (js "gpl3" = k)) as [<-|H4];
    [rewrite lookup_insert_eq; by intros [= <-]|].
  by rewrite lookup_insert_ne.
Qed.

Lemma split_first_line (p r : jsstring) :
  LF ∉ p → ∃ l ls, split LF (p ++ r) = (p ++ l) :: ls.
Proof.
  induction p as [|c p IH]; intros Hp.
  - simpl. pose proof (split_not_nil LF r).
    destruct (split LF r) as [|l ls]; [done|]. by exists l, ls.
  - apply not_elem_of_cons in Hp as [Hc Hp].
    destruct (IH Hp) as (l & ls & E). simpl.
    destruct (N.eqb_spec c LF); [congruence|]. rewrite E. by exists l, ls.
Qed.

(** The first line that [formatString] emits for a license body: the prefix
    and the word Copyright. *)
Lemma formatString_body_start (prefix body : jsstring) :
  (∃ r, body = js "Copyright" ++ r) →
  ∃ rest,
    concat (List.map (fun line => trimRight (prefix ++ line) ++ [LF])
                     (split LF body))
    = prefix ++ js "Copyright" ++ rest.
Proof.
  intros [r ->].
  destruct (split_first_line (js "Copyright") r) as (l & ls & ->);
    [by_decide|].
  cbn [concat List.map].
  change (js "Copyright" ++ l) with (js "Copyrigh" ++ 116 :: l).
  rewrite app_assoc, trimRight_app_nonwhite by reflexivity.
  eexists (trimRight l ++ [LF] ++ _).
  rewrite <- !app_assoc. reflexivity.
Qed.

(** The start of a header that is wrapped in a comment: the opening token,
    at most one line break, and the word Copyright. *)
Lemma formatHeader_wrapped (k : jsstring) (template : LicenseTemplate)
    (data : CopyrightData) (language : LanguageConfiguration)
    (c : CommentRule) (useLine : bool) (header : jsstring) :
  CopyrightMap !! k = Some template →
  comments language = Some c →
  wraps_in_comment useLine c = true →
  formatHeader template data language useLine = Ok header →
  (∃ bc0 bc1 mid rest,
     blockComment c = Some (bc0, bc1) ∧ (LF ∉ bc0)
     ∧ (count_LF mid ≤ 1)%nat
     ∧ header = bc0 ++ mid ++ js "Copyright" ++ rest)
  ∨ (∃ l rest,
       lineComment_token c = Some l ∧ (LF ∉ l)
       ∧ header = l ++ js " " ++ js "Copyright" ++ rest).
Proof.
  intros Ht Hc Hw Hf.
  pose proof (template_starts_with_Copyright k template (holder data)
                (year data) Ht) as Hbody.
  unfold formatHeader in Hf. rewrite Hc in Hf. unfold wraps_in_comment in Hw.
  destruct (if useLine then None else blockComment c) as [[bc0 bc1]|] eqn:Hb.
  - left. apply bool_decide_eq_true in Hw.
    assert (Hbc : blockComment c = Some (bc0, bc1)) by by destruct useLine.
    exists bc0, bc1.
    destruct (jseqb bc0 (js "/*")) eqn:Hslash; injection Hf as <-;
      rewrite formatString_eq.
    + apply jseqb_eq in Hslash as ->.
      destruct (formatString_body_start (js " * ") _ Hbody) as [rest ->].
      exists (js "*" ++ LF :: js " * "). eexists.
      split; [done|]. split; [done|]. split; [vm_compute; lia|].
      change (truthy (js "/*" ++ js "*")) with true. cbv iota.
      rewrite <- !app_assoc. reflexivity.
    + destruct (formatString_body_start [] _ Hbody) as [rest ->].
      destruct bc0 as [|x bc0].
      * exists []. eexists. split; [done|]. split; [done|]. split; [vm_compute; lia|].
        reflexivity.
      * exists [LF]. eexists. split; [done|]. split; [done|]. split; [vm_compute; lia|].
        cbn [truthy]. rewrite <- !app_assoc. reflexivity.
  - right. destruct (lineComment_token c) as [l|] eqn:Hl; [|done].
    apply bool_decide_eq_true in Hw. injection Hf as <-.
    rewrite formatString_eq.
    destruct (formatString_body_start (l ++ js " ") _ Hbody) as [rest ->].
    exists l. eexists. split; [done|]. split; [done|].
    cbn [truthy app]. rewrite <- !app_assoc. reflexivity.
Qed.

(** Where the edit of [insertHeader] puts the header: at the start of a
    line, after at most one line of the document. *)
Lemma inserted_at_line_start (doc : TextDocument) (startLine : nat)
    (header : jsstring) :
  (startLine ≤ 1)%nat →
  ∃ before after,
    text (insert doc startLine
            (if (startLine =? lineCount doc)%nat then LF :: header else header))
    = before ++ header ++ after
    ∧ at_line_start before ∧ (count_LF before ≤ 1)%nat.
Proof.
  intros Hle. pose proof (lineCount_1 doc) as H1.
  unfold insert, lineCount in *. cbn [text]. fold (count_LF (text doc)) in *.
  generalize dependent (text doc). intros s H1.
  destruct startLine as [|[|n]]; [| |lia].
  - exists [], s. rewrite insert_at_line_0. repeat split; [by left | done].
  - destruct (decide (LF ∈ s)) as [Hin|Hnot].
    + assert (Hs : ∃ l0 rest, (LF ∉ l0) ∧ s = l0 ++ LF :: rest).
      { clear H1. induction s as [|c s IH]; [by apply elem_of_nil in Hin|].
        destruct (decide (c = LF)) as [->|Hc].
        - exists [], s. split; [apply not_elem_of_nil | done].
        - apply elem_of_cons in Hin as [?|Hin]; [congruence|].
          destruct (IH Hin) as (l0 & rest & Hl0 & ->).
          exists (c :: l0), rest. split; [|done].
          apply not_elem_of_cons. split; [congruence | done]. }
      destruct Hs as (l0 & rest & Hl0 & ->).
      assert (Hn : (1 =? S (count_LF (l0 ++ LF :: rest)))%nat = false).
      { apply Nat.eqb_neq. rewrite count_LF_app, count_LF_cons. simpl. lia. }
      rewrite Hn. exists (l0 ++ [LF]), rest. split; [|split].
      * clear Hn H1 Hin. induction l0 as [|c l0 IH]; simpl.
        -- by rewrite insert_at_line_0.
        -- apply not_elem_of_cons in Hl0 as [Hc Hl0].
           destruct (N.eqb_spec c LF); [congruence|]. by rewrite IH.
      * right. by exists l0, LF.
      * rewrite count_LF_app, (count_LF_0 l0) by done. by vm_compute.
    + assert (Hn : (1 =? S (count_LF s))%nat = true).
      { apply Nat.eqb_eq. by rewrite count_LF_0. }
      rewrite Hn. rewrite insert_at_line_no_LF by done.
      exists (s ++ [LF]), []. split; [|split].
      * by rewrite <- !app_assoc, app_nil_r.
      * right. by exists s, LF.
      * rewrite count_LF_app, (count_LF_0 s) by done. by vm_compute.
Qed.

(** A header wrapped in a comment is found once it is inserted. *)
Lemma inserted_header_detected (host : Host) (k : jsstring)
    (template : LicenseTemplate) (data : CopyrightData)
    (language : LanguageConfiguration) (c : CommentRule) (useLine : bool)
    (header : jsstring) (doc : TextDocument) (startLine : nat) :
  CopyrightMap !! k = Some template →
  comments language = Some c →
  wraps_in_comment useLine c = true →
  formatHeader template data language useLine = Ok header →
  (startLine ≤ 1)%nat →
  hasCopyright host
    (insert doc startLine
       (if (startLine =? lineCount doc)%nat then LF :: header else header))
    (Some c)
  = Ok true.
Proof.
  intros Ht Hc Hw Hf Hle.
  destruct (inserted_at_line_start doc startLine header Hle)
    as (before & after & Htext & Hstart & Hcount).
  destruct (formatHeader_wrapped k template data language c useLine header
              Ht Hc Hw Hf)
    as [(bc0 & bc1 & mid & rest & Hb & Hbc0 & Hmid & ->)
       |(l & rest & Hl & Hl0 & ->)].
  - apply (hasCopyright_block_found host _ c bc0 bc1 Hb).
    unfold getText. rewrite Htext, <- !app_assoc.
    apply copyright_in_first_lines; [done | | done].
    rewrite (count_LF_0 bc0) by done. lia.
  - apply (hasCopyright_line_found host _ c l Hl).
    unfold getText. rewrite Htext, <- !app_assoc.
    apply copyright_in_first_lines; [done | |].
    + rewrite (count_LF_0 l) by done.
      change (count_LF (js " ")) with 0%nat. lia.
    + intros _. by repeat constructor.
Qed.

(** A second lookup of the language finds the configuration of the first
    in the cache. *)
Lemma getLanguageConfigById_again (host : Host)
    (cache cache' : gmap jsstring LanguageConfig) (id fileName : jsstring)
    (language : LanguageConfig) :
  getLanguageConfigById host cache id fileName = (Ok (Some language), cache') →
  getLanguageConfigById host cache' id fileName = (Ok (Some language), cache').
Proof.
  unfold getLanguageConfigById.
  destruct (cache !! cache_key _ _) as [config|] eqn:Hhit.
  - intros [= <- <-]. by rewrite Hhit.
  - destruct (scan_extensions _ _ _ _) as [[config|]|e]; intros [= <- <-].
    by rewrite lookup_insert_eq.
Qed.

(** A lookup that finds no configuration leaves the cache as it was. *)
Lemma getLanguageConfigById_not_found (host : Host)
    (cache cache' : gmap jsstring LanguageConfig) (id fileName : jsstring)
    (r : result (option LanguageConfig)) :
  getLanguageConfigById host cache id fileName = (r, cache') →
  (∀ language, r ≠ Ok (Some language)) →
  cache' = cache.
Proof.
  unfold getLanguageConfigById.
  destruct (cache !! cache_key _ _) as [config|].
  - by intros [= <- <-].
  - destruct (scan_extensions _ _ _ _) as [[config|]|e]; intros [= <- <-] H;
      [by destruct (H config) | done | done].
Qed.

(** The second run of the command starts like the first. *)
Ltac second_run Ht Hl :=
  unfold insertHeader; cbn [activeTextEditor cachedLanguageConfigs];
  rewrite Ht; cbn [languageId fileName insert]; rewrite Hl.

(** C4 (as amended): when the header of a run is wrapped in a comment (the
    block comment of the language when line comments are not forced, else
    its line-comment token, which is not empty; the opening token holds no
    line break), running the command twice leaves the session, and so the
    document, as running it once does: a header inserted by the first run
    is found by [hasCopyright] in the second, which changes nothing. *)
Theorem C4_second_run_changes_nothing (host : Host) (w : World) :
  header_is_comment host w = true →
  snd (insertHeader host (snd (insertHeader host w)))
    = snd (insertHeader host w)
  ∧ ∀ startLine header,
      fst (insertHeader host w) = Inserted startLine header →
      fst (insertHeader host (snd (insertHeader host w)))
        = AlreadyHasCopyright.
Proof.
  intros Hwrap. unfold header_is_comment, resolved_comments in Hwrap.
  destruct (insertHeader host w) as [o w1] eqn:Hrun. cbn [fst snd].
  unfold insertHeader in Hrun.
  destruct (CopyrightMap !! _) as [t|] eqn:Ht; cycle 1.
  { injection Hrun as <- <-. unfold insertHeader. rewrite Ht.
    split; [done | by intros]. }
  destruct (activeTextEditor w) as [doc|] eqn:Hdoc; cycle 1.
  { injection Hrun as <- <-. unfold insertHeader. rewrite Ht, Hdoc.
    split; [done | by intros]. }
  destruct (getLanguageConfigById host (cachedLanguageConfigs w)
              (languageId doc) (fileName doc)) as [r cache] eqn:Hl.
  cbn [fst] in Hwrap.
  destruct r as [[language|]|e].
  - pose proof (getLanguageConfigById_again _ _ _ _ _ _ Hl) as Hagain.
    destruct (hasCopyright host doc (comments (vsconfig language)))
      as [[]|e] eqn:Hc.
    + injection Hrun as <- <-. second_run Ht Hagain. rewrite Hc.
      split; [done | by intros].
    + destruct (formatHeader t _ (vsconfig language) _) as [h|e] eqn:Hf.
      * destruct (negb (truthy h)) eqn:Hh.
        -- injection Hrun as <- <-. second_run Ht Hagain. rewrite Hc, Hf, Hh.
           split; [done | by intros].
        -- injection Hrun as <- <-. second_run Ht Hagain.
           destruct (comments (vsconfig language)) as [c|] eqn:Hcom;
             [|done].
           rewrite (inserted_header_detected host _ t _ (vsconfig language) c
                      _ h doc _ Ht Hcom Hwrap Hf).
           ++ split; [done | by intros].
           ++ destruct (calculateInsertLineIndex_le_1 host doc language)
                as [-> | ->]; lia.
      * injection Hrun as <- <-. second_run Ht Hagain. rewrite Hc, Hf.
        split; [done | by intros].
    + injection Hrun as <- <-. second_run Ht Hagain. rewrite Hc.
      split; [done | by intros].
  - assert (cache = cachedLanguageConfigs w) as ->
      by by eapply getLanguageConfigById_not_found.
    injection Hrun as <- <-. second_run Ht Hl. split; [done | by intros].
  - assert (cache = cachedLanguageConfigs w) as ->
      by by eapply getLanguageConfigById_not_found.
    injection Hrun as <- <-. second_run Ht Hl. split; [done | by intros].
Qed.

(** C4 on the concrete host: a TypeScript file receives the banner, and
    the second run reports that the header is there. *)
Lemma C4_second_run_witness :
  header_is_comment (demo_host default_settings)
    (editing (js "typescript") (js "/src/a.ts") (js "let x = 1;")) = true
  ∧ snd (insertHeader (demo_host default_settings)
           (snd (insertHeader (demo_host default_settings)
                   (editing (js "typescript") (js "/src/a.ts")
                      (js "let x = 1;")))))
    = snd (insertHeader (demo_host default_settings)
             (editing (js "typescript") (js "/src/a.ts") (js "let x = 1;")))
  ∧ ∀ startLine header,
      fst (insertHeader (demo_host default_settings)
             (editing (js "typescript") (js "/src/a.ts") (js "let x = 1;")))
        = Inserted startLine header →
      fst (insertHeader (demo_host default_settings)
             (snd (insertHeader (demo_host default_settings)
                     (editing (js "typescript") (js "/src/a.ts")
                        (js "let x = 1;")))))
        = AlreadyHasCopyright.
Proof.
  split; [vm_compute; reflexivity|].
  apply (C4_second_run_changes_nothing (demo_host default_settings)
           (editing (js "typescript") (js "/src/a.ts") (js "let x = 1;"))).
  vm_compute. reflexivity.
Defined.

(** C4, the claim as stated fails: with line comments forced and a language
    that has block comments only, the body is inserted without any comment
    token, [hasCopyright] does not find it, and the second run inserts the
    body again. *)
Lemma C4_unwrapped_header_counterexample :
  let once := snd (insertHeader (demo_host line_comment_settings) style_sheet) in
  let twice := snd (insertHeader (demo_host line_comment_settings) once) in
  document_text once
    = Some (bsd (js "Example Corp") (js "2024") ++ LF :: LF
              :: js "a { color: red }")
  ∧ document_text twice
    = Some (bsd (js "Example Corp") (js "2024") ++ LF :: LF
              :: bsd (js "Example Corp") (js "2024") ++ LF :: LF
              :: js "a { color: red }")
  ∧ document_text twice ≠ document_text once.
Proof.
  vm_compute. split; [reflexivity|]. split; [reflexivity|]. discriminate.
Qed.

(** Why the opening token must hold no line break: an opener of eleven
    lines pushes the word Copyright out of the ten lines that
    [hasCopyright] reads, and the second run inserts a second header. *)
Example tall_opener_inserted_twice :
  let w := editing (js "tall") (js "/a.tall") (js "text") in
  let once := insertHeader tall_host w in
  let twice := insertHeader tall_host (snd once) in
  fst once = Inserted 0 (inserted_header (fst once))
  ∧ fst twice = Inserted 0 (inserted_header (fst twice))
  ∧ document_text (snd twice) ≠ document_text (snd once).
Proof. vm_compute. split; [reflexivity|]. split; [reflexivity|]. discriminate. Qed.

(** * Further properties *)

(** ** Escaping a comment token *)

(** A comment token, once escaped, is compiled to the literal items of the
    token, whatever characters it holds; so the pattern of [hasCopyright]
    always compiles, and under every choice of flags it matches the token
    itself followed by the word Copyright. *)
Theorem escaped_token_is_literal (up : jschar → jschar) (f : Flags)
    (token rest : jsstring) :
  parse (copyright_pattern (escapeStringForRegexp token))
    = Some (copyright_regex token)
  ∧ RegExp_test up (copyright_pattern (escapeStringForRegexp token)) f
      (token ++ js "Copyright" ++ rest) = true.
Proof.
  split; [apply parse_copyright_pattern|].
  unfold RegExp_test. rewrite parse_copyright_pattern.
  apply search_spec. exists [], (token ++ js "Copyright" ++ rest).
  split; [done|]. unfold copyright_regex. cbn [match_here prev_after last at_bol].
  apply match_here_literals. exists token, (js "Copyright" ++ rest).
  split; [done|]. split; [apply same_text_refl|].
  apply match_here_star_dot. exists [], (js "Copyright" ++ rest).
  split; [done|]. split; [constructor|].
  rewrite <- (app_nil_r (List.map literal (js "Copyright"))).
  apply match_here_literals. exists (js "Copyright"), rest.
  split; [done|]. split; [apply same_text_refl | done].
Qed.

Lemma escapeStringForRegexp_cons (c : jschar) (s : jsstring) :
  escapeStringForRegexp (c :: s)
  = (if is_escaped_char c then [92; c] else [c]) ++ escapeStringForRegexp s.
Proof. reflexivity. Qed.

Lemma escapeStringForRegexp_length (s : jsstring) :
  (length s ≤ length (escapeStringForRegexp s) ≤ 2 * length s)%nat.
Proof.
  induction s as [|c s IH]; [simpl; lia|].
  rewrite escapeStringForRegexp_cons, length_app.
  unfold jsstring, jschar in *.
  destruct (is_escaped_char c); cbn [length]; lia.
Qed.

(** [escapeStringForRegexp] loses nothing: different tokens have different
    escaped forms; a token comes out unchanged exactly when it holds none of
    the escaped characters; the result is at most twice as long. *)
Theorem escapeStringForRegexp_faithful :
  (∀ s1 s2, escapeStringForRegexp s1 = escapeStringForRegexp s2 → s1 = s2)
  ∧ (∀ s, escapeStringForRegexp s = s
          ↔ forallb (fun c => negb (is_escaped_char c)) s = true)
  ∧ (∀ s, (length s ≤ length (escapeStringForRegexp s) ≤ 2 * length s)%nat).
Proof.
  split; [|split; [|apply escapeStringForRegexp_length]].
  - intros s1. induction s1 as [|c1 s1 IH]; intros [|c2 s2].
    + done.
    + rewrite escapeStringForRegexp_cons.
      destruct (is_escaped_char c2); discriminate.
    + rewrite escapeStringForRegexp_cons.
      destruct (is_escaped_char c1); discriminate.
    + rewrite !escapeStringForRegexp_cons.
      destruct (is_escaped_char c1) eqn:H1, (is_escaped_char c2) eqn:H2;
        simpl; intros E.
      * injection E as -> E. by rewrite (IH _ E).
      * injection E as E1 E2. subst c2. by vm_compute in H2.
      * injection E as E1 E2. subst c1. by vm_compute in H1.
      * injection E as -> E. by rewrite (IH _ E).
  - intros s. induction s as [|c s IH]; [done|].
    rewrite escapeStringForRegexp_cons. cbn [forallb].
    destruct (is_escaped_char c) eqn:Hc; simpl.
    + split; [|done]. intros E. injection E as E1 E. subst c.
      pose proof (escapeStringForRegexp_length s) as Hlen.
      apply (f_equal length) in E. cbn [length] in E.
      unfold jsstring, jschar in *. lia.
    + rewrite <- IH. split; [by intros [= E] | by intros ->].
Qed.

(** ** Header Formatter: the other wrapping styles *)

Lemma trimRight_spec (s : jsstring) :
  ∃ w, s = trimRight s ++ w
       ∧ forallb is_white w = true
       ∧ ∀ c, last (trimRight s) = Some c → is_white c = false.
Proof.
  induction s as [|c r (w & Hr & Hw & Hlast)]; [by exists []|].
  simpl. destruct (trimRight r) as [|y t] eqn:E.
  - simpl in Hr. subst r. destruct (is_white c) eqn:Hc.
    + exists (c :: w). simpl. rewrite Hc. by repeat split.
    + exists w. repeat split; [done|]. by intros ? [= <-].
  - exists w. split; [by rewrite Hr at 1|]. split; [done|].
    intros d Hd. apply Hlast. by destruct t.
Qed.

(** The line that [formatString] emits for a body line is prefix + line
    without its trailing white space: what is cut off is white space only,
    and what is left does not end with white space. *)
Theorem emitted_line_trimmed (prefix line : jsstring) :
  ∃ w, prefix ++ line = emitted_line prefix line ++ w
       ∧ forallb is_white w = true
       ∧ ∀ c, last (emitted_line prefix line) = Some c → is_white c = false.
Proof.
  unfold emitted_line.
  destruct (trimRight_spec (prefix ++ line)) as (w & E & Hw & Hlast).
  exists w. by repeat split.
Qed.

(** In the line-comment style, used when line comments are forced or the
    language has no block comment, the header is the body with each line
    prefixed by the token and one space (trailing white space stripped),
    followed by one blank line; there is no opening or closing line. *)
Theorem formatHeader_line_comment_lines (template : LicenseTemplate)
    (data : CopyrightData) (c : CommentRule) (useLine : bool)
    (lc : jsstring) :
  lineComment_token c = Some lc →
  useLine = true ∨ blockComment c = None →
  LF ∉ lc →
  ∃ header,
    formatHeader template data {| comments := Some c |} useLine = Ok header
    ∧ split LF header
      = List.map (emitted_line (lc ++ js " "))
          (split LF (template (holder data) (year data)))
        ++ [[]; []].
Proof.
  intros Hl Hstyle Hlc. eexists. split.
  - unfold formatHeader. cbn [comments].
    assert ((if useLine then None else blockComment c) = None) as ->
      by (destruct Hstyle as [-> | ->]; [done | by destruct useLine]).
    rewrite Hl. reflexivity.
  - rewrite formatString_lines; [done | apply not_elem_of_nil | |
                                 apply not_elem_of_nil].
    intros [?|Hin]%elem_of_app; [done|]. revert Hin.
    change (LF ∉ js " "). by_decide.
Qed.

(** In the plain block style, used for a block comment whose opener is not
    "/*", the header is the opener on a line of its own, the body lines with
    trailing white space stripped and no prefix, the closer on a line of its
    own, and one blank line; an empty opener or closer gives no line. *)
Theorem formatHeader_plain_block_lines (template : LicenseTemplate)
    (data : CopyrightData) (c : CommentRule) (bc0 bc1 : jsstring) :
  blockComment c = Some (bc0, bc1) →
  bc0 ≠ js "/*" →
  LF ∉ bc0 → LF ∉ bc1 →
  ∃ header,
    formatHeader template data {| comments := Some c |} false = Ok header
    ∧ split LF header
      = (if truthy bc0 then [bc0] else [])
        ++ List.map trimRight (split LF (template (holder data) (year data)))
        ++ (if truthy bc1 then [bc1] else [])
        ++ [[]; []].
Proof.
  intros Hb Hne H0 H1. eexists. split.
  - unfold formatHeader. cbn [comments]. rewrite Hb.
    apply jseqb_neq in Hne. rewrite Hne. reflexivity.
  - by rewrite formatString_lines by (done || apply not_elem_of_nil).
Qed.

Lemma formatHeader_line_comment_lines_witness :
  lineComment_token hash_rule = Some (js "#")
  ∧ (true = true ∨ blockComment hash_rule = None)
  ∧ (LF ∉ js "#")
  ∧ ∃ header,
      formatHeader bsd example_data {| comments := Some hash_rule |} true
        = Ok header
      ∧ split LF header
        = List.map (emitted_line (js "#" ++ js " "))
            (split LF (bsd (holder example_data) (year example_data)))
          ++ [[]; []].
Proof.
  assert (H1 : lineComment_token hash_rule = Some (js "#")) by reflexivity.
  assert (H2 : true = true ∨ blockComment hash_rule = None) by (by left).
  assert (H3 : LF ∉ js "#") by by_decide.
  split; [exact H1|]. split; [exact H2|]. split; [exact H3|].
  exact (formatHeader_line_comment_lines bsd example_data hash_rule true
           (js "#") H1 H2 H3).
Defined.

Lemma formatHeader_plain_block_lines_witness :
  blockComment markup_rule = Some (js "<!--", js "-->")
  ∧ js "<!--" ≠ js "/*"
  ∧ (LF ∉ js "<!--") ∧ (LF ∉ js "-->")
  ∧ ∃ header,
      formatHeader mit example_data {| comments := Some markup_rule |} false
        = Ok header
      ∧ split LF header
        = (if truthy (js "<!--") then [js "<!--"] else [])
          ++ List.map trimRight
               (split LF (mit (holder example_data) (year example_data)))
          ++ (if truthy (js "-->") then [js "-->"] else [])
          ++ [[]; []].
Proof.
  assert (H1 : blockComment markup_rule = Some (js "<!--", js "-->"))
    by reflexivity.
  assert (H2 : js "<!--" ≠ js "/*") by by_decide.
  assert (H3 : LF ∉ js "<!--") by by_decide.
  assert (H4 : LF ∉ js "-->") by by_decide.
  split; [exact H1|]. split; [exact H2|]. split; [exact H3|].
  split; [exact H4|].
  exact (formatHeader_plain_block_lines mit example_data markup_rule
           (js "<!--") (js "-->") H1 H2 H3 H4).
Defined.

(** ** Header Presence Detector: what it does not see *)

Lemma text_before_line_cut (n : nat) (p r : jsstring) :
  (n ≤ count_LF p)%nat →
  text_before_line n (p ++ r) = text_before_line n p.
Proof.
  revert n. induction p as [|c p IH]; intros n Hn.
  - assert (n = 0%nat) as -> by (unfold count_LF in Hn; simpl in Hn; lia).
    by destruct r.
  - destruct n as [|m]; [done|]. rewrite count_LF_cons in Hn.
    cbn [app text_before_line]. f_equal.
    destruct (c =? LF); apply IH; lia.
Qed.

(** [hasCopyright] reads the first ten lines only: what follows the tenth
    line break of a document has no effect on its answer. *)
Theorem hasCopyright_first_ten_lines (host : Host) (doc : TextDocument)
    (c : option CommentRule) (more : jsstring) :
  (10 ≤ count_LF (text doc))%nat →
  hasCopyright host
    {| languageId := languageId doc; fileName := fileName doc;
       text := text doc ++ more |} c
  = hasCopyright host doc c.
Proof.
  intros Hn. unfold hasCopyright, getText. cbn [text].
  by rewrite text_before_line_cut.
Qed.

(** A notice on the twelfth line is not seen. *)
Lemma hasCopyright_first_ten_lines_witness :
  (10 ≤ count_LF (concat (repeat (js "let x = 1;" ++ [LF]) 11)))%nat
  ∧ hasCopyright (demo_host default_settings) twelve_lines (comments c_style)
    = hasCopyright (demo_host default_settings)
        {| languageId := js "typescript"; fileName := js "/src/long.ts";
           text := concat (repeat (js "let x = 1;" ++ [LF]) 11) |}
        (comments c_style)
  ∧ hasCopyright (demo_host default_settings) twelve_lines (comments c_style)
    = Ok false.
Proof.
  assert (H : (10 ≤ count_LF (concat (repeat (js "let x = 1;" ++ [LF]) 11)))%nat)
    by (vm_compute; lia).
  split; [exact H|]. split.
  - exact (hasCopyright_first_ten_lines (demo_host default_settings)
             {| languageId := js "typescript"; fileName := js "/src/long.ts";
                text := concat (repeat (js "let x = 1;" ++ [LF]) 11) |}
             (comments c_style) (js "// Copyright 2020 Example Corp") H).
  - vm_compute. reflexivity.
Defined.

(** [hasCopyright] never reports a header when the word Copyright, in any
    letter case, does not occur in the first ten lines: when the plain
    pattern [/Copyright/i] fails there, the answer is false for every
    comment rule. *)
Theorem hasCopyright_needs_the_word (host : Host) (doc : TextDocument)
    (c : CommentRule) :
  RegExp_test (upper1 host) (js "Copyright") flags_mi (getText doc 10) = false →
  hasCopyright host doc (Some c) = Ok false.
Proof.
  intros Hword.
  assert (Hno : ∀ spanning token,
            ¬ copyright_after (upper1 host) spanning token (getText doc 10)).
  { intros spanning token
      (before & tok & between & word & after & E & _ & _ & Hw & _).
    assert (Hfound : RegExp_test (upper1 host) (js "Copyright") flags_mi
                       (getText doc 10) = true); [|congruence].
    unfold RegExp_test.
    change (parse (js "Copyright"))
      with (Some (List.map literal (js "Copyright") ++ [])).
    apply search_spec. exists (before ++ tok ++ between), (word ++ after).
    split; [by rewrite E, <- !app_assoc|].
    apply match_here_literals. by exists word, after. }
  unfold hasCopyright.
  destruct (blockComment c) as [[bc0 bc1]|].
  - destruct (RegExp_test _ (copyright_pattern _) flags_mis _) eqn:Hb.
    { apply (test_copyright_pattern (upper1 host) true) in Hb.
      by destruct (Hno _ _ Hb). }
    destruct (lineComment_token c) as [l|]; [|done].
    destruct (RegExp_test _ (copyright_pattern _) flags_mi _) eqn:Hl; [|done].
    apply (test_copyright_pattern (upper1 host) false) in Hl.
    by destruct (Hno _ _ Hl).
  - destruct (lineComment_token c) as [l|]; [|done].
    destruct (RegExp_test _ (copyright_pattern _) flags_mi _) eqn:Hl; [|done].
    apply (test_copyright_pattern (upper1 host) false) in Hl.
    by destruct (Hno _ _ Hl).
Qed.

Lemma hasCopyright_needs_the_word_witness :
  RegExp_test (upper1 (demo_host default_settings)) (js "Copyright") flags_mi
    (getText {| languageId := js "typescript"; fileName := js "/src/a.ts";
                text := js "// (c) 2020 Example Corp" |} 10) = false
  ∧ hasCopyright (demo_host default_settings)
      {| languageId := js "typescript"; fileName := js "/src/a.ts";
         text := js "// (c) 2020 Example Corp" |}
      (Some {| lineComment := Some (js "//");
               blockComment := Some (js "/*", js "*/") |})
    = Ok false.
Proof.
  assert (H : RegExp_test (upper1 (demo_host default_settings))
                (js "Copyright") flags_mi
                (getText {| languageId := js "typescript";
                            fileName := js "/src/a.ts";
                            text := js "// (c) 2020 Example Corp" |} 10)
              = false) by (vm_compute; reflexivity).
  split; [exact H|].
  exact (hasCopyright_needs_the_word (demo_host default_settings) _ _ H).
Defined.

(** ** Orchestrator: what a run does to the session *)

(** When the configuration of the language has no [comments], the command
    fails with a type error at the first property read from it; the
    document stays as it is, and the configuration stays in the cache. *)
Theorem insertHeader_without_comments (host : Host) (w : World)
    (doc : TextDocument) (language : LanguageConfig)
    (cache : gmap jsstring LanguageConfig) :
  is_Some (CopyrightMap
    !! license (getExtensionConfig (configView host) (getFullYear host))) →
  activeTextEditor w = Some doc →
  getLanguageConfigById host (cachedLanguageConfigs w)
    (languageId doc) (fileName doc) = (Ok (Some language), cache) →
  comments (vsconfig language) = None →
  insertHeader host w
  = (Uncaught TypeError,
     {| cachedLanguageConfigs := cache; activeTextEditor := Some doc |}).
Proof.
  intros [t Ht] Hdoc Hl Hc. unfold insertHeader.
  rewrite Ht, Hdoc, Hl, Hc. reflexivity.
Qed.

Lemma insertHeader_without_comments_witness :
  is_Some (CopyrightMap
    !! license (getExtensionConfig (configView bare_host)
                  (getFullYear bare_host)))
  ∧ activeTextEditor (editing (js "log") (js "/var/app.log") (js "started"))
    = Some {| languageId := js "log"; fileName := js "/var/app.log";
              text := js "started" |}
  ∧ insertHeader bare_host
      (editing (js "log") (js "/var/app.log") (js "started"))
    = (Uncaught TypeError,
       {| cachedLanguageConfigs :=
            snd (getLanguageConfigById bare_host ∅ (js "log")
                   (js "/var/app.log"));
          activeTextEditor :=
            Some {| languageId := js "log"; fileName := js "/var/app.log";
                    text := js "started" |} |}).
Proof.
  assert (H1 : is_Some (CopyrightMap
    !! license (getExtensionConfig (configView bare_host)
                  (getFullYear bare_host)))) by (eexists; reflexivity).
  split; [exact H1|]. split; [reflexivity|].
  apply (insertHeader_without_comments bare_host
           (editing (js "log") (js "/var/app.log") (js "started"))
           {| languageId := js "log"; fileName := js "/var/app.log";
              text := js "started" |}
           {| id := js "log"; firstLine := None;
              vsconfig := {| comments := None |} |}
           (snd (getLanguageConfigById bare_host ∅ (js "log")
                   (js "/var/app.log")))
           H1).
  - reflexivity.
  - vm_compute. reflexivity.
  - reflexivity.
Defined.

(** The edit splits the text at the insertion point and puts the header in
    between. *)
Lemma insert_at_line_split (n : nat) (t s : jsstring) :
  ∃ after,
    s = text_before_line n s ++ after
    ∧ insert_at_line n t s = text_before_line n s ++ t ++ after.
Proof.
  revert n. induction s as [|c r IH]; intros n.
  - exists []. destruct n; simpl; by rewrite ?app_nil_r.
  - destruct n as [|m].
    + by exists (c :: r).
    + destruct (IH (if c =? LF then m else S m)) as (after & E & Hins).
      exists after. cbn [text_before_line insert_at_line app].
      split; [by rewrite <- E | by rewrite Hins].
Qed.

(** A run that inserts a header adds text and changes nothing else: the
    new text is the old one with the header put in, either in front of the
    document or right after its first line; the language and the file name
    of the document stay. *)
Theorem insertHeader_keeps_content (host : Host) (w w' : World)
    (startLine : nat) (header : jsstring) :
  insertHeader host w = (Inserted startLine header, w') →
  ∃ doc doc' before after,
    activeTextEditor w = Some doc
    ∧ activeTextEditor w' = Some doc'
    ∧ languageId doc' = languageId doc
    ∧ fileName doc' = fileName doc
    ∧ text doc = before ++ after
    ∧ text doc' = before ++ header ++ after
    ∧ ((startLine = 0%nat ∧ before = [])
       ∨ (startLine = 1%nat ∧ before = getText doc 1)).
Proof.
  intros Hrun.
  apply insertHeader_Inserted in Hrun
    as (t & doc & lang & cache & h & _ & Hdoc & _ & _ & Hs & _ & _ & ->).
  destruct (insert_at_line_split startLine header (text doc))
    as (after & E & Hins).
  exists doc, (insert doc startLine header), (text_before_line startLine (text doc)),
    after.
  do 4 (split; [done|]). split; [done|]. split; [done|].
  destruct (calculateInsertLineIndex_le_1 host doc lang) as [H0|H1];
    rewrite <- Hs in *.
  - left. rewrite H0. split; [done|]. by destruct (text doc).
  - right. by rewrite H1.
Qed.

Lemma insertHeader_keeps_content_witness :
  insertHeader (demo_host default_settings) script_session
    = (Inserted 1
         (inserted_header
            (fst (insertHeader (demo_host default_settings) script_session))),
       snd (insertHeader (demo_host default_settings) script_session))
  ∧ ∃ doc doc' before after,
      activeTextEditor script_session = Some doc
      ∧ activeTextEditor
          (snd (insertHeader (demo_host default_settings) script_session))
        = Some doc'
      ∧ languageId doc' = languageId doc
      ∧ fileName doc' = fileName doc
      ∧ text doc = before ++ after
      ∧ text doc'
        = before
          ++ inserted_header
               (fst (insertHeader (demo_host default_settings) script_session))
          ++ after
      ∧ ((1%nat = 0%nat ∧ before = [])
         ∨ (1%nat = 1%nat ∧ before = getText doc 1)).
Proof.
  assert (H : insertHeader (demo_host default_settings) script_session
    = (Inserted 1
         (inserted_header
            (fst (insertHeader (demo_host default_settings) script_session))),
       snd (insertHeader (demo_host default_settings) script_session)))
    by (vm_compute; reflexivity).
  split; [exact H|].
  exact (insertHeader_keeps_content (demo_host default_settings)
           script_session _ 1 _ H).
Defined.

(** Every way the command ends without inserting leaves the active document
    as it was; a run that inserts changes it by that one insertion. *)
Theorem insertHeader_document (host : Host) (w : World) :
  match fst (insertHeader host w) with
  | Inserted startLine header =>
      ∃ doc, activeTextEditor w = Some doc
             ∧ activeTextEditor (snd (insertHeader host w))
               = Some (insert doc startLine header)
  | _ => activeTextEditor (snd (insertHeader host w)) = activeTextEditor w
  end.
Proof.
  unfold insertHeader.
  destruct (CopyrightMap !! _) as [t|]; [|done].
  destruct (activeTextEditor w) as [doc|] eqn:Hdoc; [|done].
  destruct (getLanguageConfigById _ _ _ _) as [[[lang|]|e] cache]; try done.
  destruct (hasCopyright _ _ _) as [[]|e]; try done.
  destruct (formatHeader _ _ _ _) as [h|e]; [|done].
  destruct (negb (truthy h)); [done|]. cbn [fst snd activeTextEditor].
  by exists doc.
Qed.

(** ** Comment-Style Resolver: the cache *)

Lemma app_sep_inj (x : jschar) (a b r1 r2 : jsstring) :
  x ∉ a → x ∉ b → a ++ x :: r1 = b ++ x :: r2 → a = b ∧ r1 = r2.
Proof.
  revert b. induction a as [|c a IH]; intros [|d b] Ha Hb E; simpl in E.
  - by injection E.
  - injection E as -> _. by destruct Hb; left.
  - injection E as -> _. by destruct Ha; left.
  - injection E as -> E.
    apply not_elem_of_cons in Ha as [_ Ha]. apply not_elem_of_cons in Hb as [_ Hb].
    destruct (IH b Ha Hb E) as [-> ->]. done.
Qed.

(** The keys of the cache tell language and extension apart as long as the
    language ids hold no plus sign: equal keys then mean equal ids and equal
    extensions. *)
Theorem cache_key_inj (id1 ext1 id2 ext2 : jsstring) :
  PLUS ∉ id1 → PLUS ∉ id2 →
  cache_key id1 ext1 = cache_key id2 ext2 →
  id1 = id2 ∧ ext1 = ext2.
Proof.
  intros H1 H2 E. unfold cache_key in E.
  change (js "+" ++ ?e) with (PLUS :: e) in E.
  by apply (app_sep_inj PLUS).
Qed.

Lemma cache_key_inj_witness :
  (PLUS ∉ js "typescript") ∧ (PLUS ∉ js "typescript")
  ∧ cache_key (js "typescript") (js ".ts")
    = cache_key (js "typescript") (js ".ts")
  ∧ js "typescript" = js "typescript" ∧ js ".ts" = js ".ts".
Proof.
  assert (H : PLUS ∉ js "typescript") by by_decide.
  split; [exact H|]. split; [exact H|]. split; [reflexivity|].
  exact (cache_key_inj (js "typescript") (js ".ts") (js "typescript")
           (js ".ts") H H eq_refl).
Defined.

(** With a plus sign in a language id two different pairs share a key. *)
Example cache_key_collision :
  cache_key (js "a+.c") [] = cache_key (js "a") (js ".c+").
Proof. reflexivity. Qed.

(** A lookup changes the cache at the key of its language and extension
    only, and only when it finds a configuration, which is then what that
    key holds; a lookup that finds nothing or fails stores nothing. *)
Theorem getLanguageConfigById_cache (host : Host)
    (cache : gmap jsstring LanguageConfig) (id fileName : jsstring) :
  (∀ k, k ≠ cache_key id (toLowerCase host (extname host fileName)) →
        snd (getLanguageConfigById host cache id fileName) !! k = cache !! k)
  ∧ match fst (getLanguageConfigById host cache id fileName) with
    | Ok (Some config) =>
        snd (getLanguageConfigById host cache id fileName)
          !! cache_key id (toLowerCase host (extname host fileName))
        = Some config
    | _ => snd (getLanguageConfigById host cache id fileName) = cache
    end.
Proof.
  unfold getLanguageConfigById.
  destruct (cache !! cache_key _ _) as [config|] eqn:Hhit.
  - by split.
  - destruct (scan_extensions _ _ _ _) as [[config|]|e]; cbn [fst snd].
    + split; [|apply lookup_insert_eq].
      intros k Hk. by rewrite lookup_insert_ne.
    + by split.
    + by split.
Qed.

Lemma cache_sound_empty (host : Host) : cache_sound host ∅.
Proof. intros id fileExt config _ H. by rewrite lookup_empty in H. Qed.

(** A lookup for a language id without plus sign keeps the cache sound. *)
Lemma getLanguageConfigById_sound (host : Host)
    (cache : gmap jsstring LanguageConfig) (id fileName : jsstring) :
  PLUS ∉ id →
  cache_sound host cache →
  cache_sound host (snd (getLanguageConfigById host cache id fileName)).
Proof.
  intros Hid Hsound. unfold getLanguageConfigById.
  destruct (cache !! cache_key _ _) as [config|] eqn:Hhit; [done|].
  destruct (scan_extensions _ _ _ _) as [[config|]|e] eqn:Hscan;
    cbn [snd]; try done.
  intros id' ext' config' Hid' Hlook.
  destruct (decide (cache_key id (toLowerCase host (extname host fileName))
                    = cache_key id' ext')) as [E|Hne].
  - rewrite E, lookup_insert_eq in Hlook. injection Hlook as <-.
    unfold cache_key in E. change (js "+" ++ ?e) with (PLUS :: e) in E.
    apply (app_sep_inj PLUS) in E as [<- <-]; done.
  - rewrite lookup_insert_ne in Hlook by done. by apply Hsound.
Qed.

(** The cache is transparent: if every entry of the cache is what the scan
    of the installed extensions returns, a lookup for a language id without
    plus sign answers as the scan does, and the cache it leaves has the
    same property. *)
Theorem getLanguageConfigById_transparent (host : Host)
    (cache : gmap jsstring LanguageConfig) (id fileName : jsstring) :
  PLUS ∉ id →
  cache_sound host cache →
  fst (getLanguageConfigById host cache id fileName)
    = scan_extensions host id (toLowerCase host (extname host fileName))
        (extensions_all host)
  ∧ cache_sound host (snd (getLanguageConfigById host cache id fileName)).
Proof.
  intros Hid Hsound. split; [|by apply getLanguageConfigById_sound].
  unfold getLanguageConfigById.
  destruct (cache !! cache_key _ _) as [config|] eqn:Hhit.
  - cbn [fst]. symmetry. by apply Hsound.
  - by destruct (scan_extensions _ _ _ _) as [[config|]|e].
Qed.

(** The cache that holds the configuration of TypeScript files is sound for
    the concrete host. *)
Lemma warm_cache_sound : cache_sound (demo_host default_settings) warm_cache.
Proof.
  intros id fileExt config Hid Hlook. unfold warm_cache in Hlook.
  apply lookup_singleton_Some in Hlook as [E <-].
  unfold cache_key in E. change (js "+" ++ ?e) with (PLUS :: e) in E.
  apply (app_sep_inj PLUS) in E as [<- <-]; [|by_decide | done].
  vm_compute. reflexivity.
Qed.

(** Transparency on a hit: the cache holds the entry of TypeScript files,
    and the lookup for another TypeScript file answers from the cache what
    the scan would return. *)
Lemma getLanguageConfigById_transparent_witness :
  (PLUS ∉ js "typescript")
  ∧ cache_sound (demo_host default_settings) warm_cache
  ∧ warm_cache
      !! cache_key (js "typescript")
           (toLowerCase (demo_host default_settings)
              (extname (demo_host default_settings) (js "/src/b.ts")))
    = Some typescript_config
  ∧ fst (getLanguageConfigById (demo_host default_settings) warm_cache
           (js "typescript") (js "/src/b.ts"))
    = scan_extensions (demo_host default_settings) (js "typescript")
        (toLowerCase (demo_host default_settings)
           (extname (demo_host default_settings) (js "/src/b.ts")))
        (extensions_all (demo_host default_settings))
  ∧ cache_sound (demo_host default_settings)
      (snd (getLanguageConfigById (demo_host default_settings) warm_cache
              (js "typescript") (js "/src/b.ts"))).
Proof.
  assert (H1 : PLUS ∉ js "typescript") by by_decide.
  split; [exact H1|]. split; [exact warm_cache_sound|].
  split; [vm_compute; reflexivity|].
  exact (getLanguageConfigById_transparent (demo_host default_settings)
           warm_cache (js "typescript") (js "/src/b.ts") H1 warm_cache_sound).
Defined.

(** The command keeps the cache sound: on a document whose language id
    holds no plus sign, a run that starts with a cache whose entries are
    what the scan returns ends with such a cache, whatever its outcome. *)
Theorem insertHeader_cache_sound (host : Host) (w : World) :
  (∀ doc, activeTextEditor w = Some doc → PLUS ∉ languageId doc) →
  cache_sound host (cachedLanguageConfigs w) →
  cache_sound host (cachedLanguageConfigs (snd (insertHeader host w))).
Proof.
  intros Hid Hsound. unfold insertHeader.
  destruct (CopyrightMap !! _) as [t|]; [|done].
  destruct (activeTextEditor w) as [doc|] eqn:Hdoc; [|done].
  pose proof (getLanguageConfigById_sound host (cachedLanguageConfigs w)
                (languageId doc) (fileName doc) (Hid doc eq_refl) Hsound)
    as Hafter.
  destruct (getLanguageConfigById _ _ _ _) as [[[lang|]|e] cache];
    cbn [snd] in Hafter; try done.
  destruct (hasCopyright _ _ _) as [[]|e]; try done.
  destruct (formatHeader _ _ _ _) as [h|e]; [|done].
  by destruct (negb (truthy h)).
Qed.

(** Soundness kept by a run that starts with an entry in the cache: the
    run on a style sheet adds the entry of style sheets and keeps the entry
    of TypeScript files. *)
Lemma insertHeader_cache_sound_witness :
  (∀ doc, activeTextEditor warm_session = Some doc → PLUS ∉ languageId doc)
  ∧ cache_sound (demo_host default_settings)
      (cachedLanguageConfigs warm_session)
  ∧ cachedLanguageConfigs
      (snd (insertHeader (demo_host default_settings) warm_session))
      !! cache_key (js "typescript") (js ".ts")
    = Some typescript_config
  ∧ cachedLanguageConfigs
      (snd (insertHeader (demo_host default_settings) warm_session))
      !! cache_key (js "css") (js ".css")
    = Some {| id := js "css"; firstLine := None; vsconfig := css_style |}
  ∧ cache_sound (demo_host default_settings)
      (cachedLanguageConfigs
         (snd (insertHeader (demo_host default_settings) warm_session))).
Proof.
  assert (H1 : ∀ doc,
     activeTextEditor warm_session = Some doc → PLUS ∉ languageId doc).
  { intros doc [= <-]. cbn [languageId]. by_decide. }
  split; [exact H1|]. split; [exact warm_cache_sound|].
  split; [vm_compute; reflexivity|]. split; [vm_compute; reflexivity|].
  exact (insertHeader_cache_sound (demo_host default_settings) warm_session
           H1 warm_cache_sound).
Defined.

(** ** Comment-Style Resolver: a definition without extensions *)

Lemma find_result_app {A} (p : A → result bool) (l1 l2 : list A) :
  find p (l1 ++ l2)
  = let! d := find p l1 in
    match d with
    | Some x => Ok (Some x)
    | None => find p l2
    end.
Proof.
  induction l1 as [|x l1 IH]; simpl; [done|].
  destruct (p x) as [[]|e]; simpl; [done | apply IH | done].
Qed.

Lemma find_result_pair {A B} (e : A) (p : B → result bool) (l : list B) :
  find (fun q => p (snd q)) (List.map (pair e) l)
  = let! d := find p l in Ok (pair e <$> d).
Proof.
  induction l as [|x l IH]; simpl; [done|].
  destruct (p x) as [[]|err]; simpl; [done | apply IH | done].
Qed.

(** The loop over the extensions is one search through all language
    definitions in the order of the host, with a test that may throw. *)
Lemma scan_extensions_find (host : Host) (id fileExt : jsstring)
    (all : list Extension) :
  scan_extensions host id fileExt all
  = let! d := find (fun q => language_matches id fileExt (snd q))
                (all_languages all) in
    match d with
    | Some (extension, data) =>
        let! config := make_config host id extension data in
        Ok (Some config)
    | None => Ok None
    end.
Proof.
  induction all as [|e rest IH]; simpl; [done|].
  rewrite find_result_app.
  destruct (languages e) as [ls|]; simpl; [|apply IH].
  rewrite find_result_pair.
  destruct (find (language_matches id fileExt) ls) as [[data|]|err]; simpl;
    [done | apply IH | done].
Qed.

(** A language definition that declares no list of extensions makes the
    search fail with a type error for every file that has an extension, as
    soon as the search reaches it; for a file without extension the same
    definition is a match. *)
Theorem scan_extensions_without_extensions (host : Host)
    (id fileExt : jsstring) (all : list Extension)
    (before after : list (Extension * Contributes.language))
    (extension : Extension) (data : Contributes.language) :
  all_languages all = before ++ (extension, data) :: after →
  Forall (fun q => language_matches id fileExt (snd q) = Ok false) before →
  Contributes.id data = id →
  Contributes.extensions data = None →
  (fileExt ≠ [] → scan_extensions host id fileExt all = Throw TypeError)
  ∧ (fileExt = [] →
     scan_extensions host id fileExt all
     = let! config := make_config host id extension data in Ok (Some config)).
Proof.
  intros Hall Hbefore Hid Hext.
  assert (Hfind : ∀ r,
            language_matches id fileExt data = r →
            find (fun q => language_matches id fileExt (snd q))
              (all_languages all)
            = let! b := r in
              if b then Ok (Some (extension, data))
              else find (fun q => language_matches id fileExt (snd q)) after).
  { intros r <-. rewrite Hall. clear Hall.
    induction Hbefore as [|q before Hq _ IH]; simpl; [done|].
    by rewrite Hq. }
  assert (Hm : language_matches id fileExt data
               = if negb (truthy fileExt) then Ok true else Throw TypeError).
  { unfold language_matches, jseqb. rewrite Hid, Hext.
    by rewrite bool_decide_eq_true_2. }
  rewrite scan_extensions_find, (Hfind _ Hm).
  split; intros Hf.
  - by destruct fileExt.
  - by subst fileExt.
Qed.

Lemma scan_extensions_without_extensions_witness :
  all_languages (extensions_all ignore_files_host)
    = [] ++ ({| extensionPath := js "/ext/git";
                languages := Some [
                  {| Contributes.id := js "ignore";
                     Contributes.extensions := None;
                     Contributes.firstLine := None;
                     Contributes.configuration := Some (js "ignore.json") |} ] |},
             {| Contributes.id := js "ignore";
                Contributes.extensions := None;
                Contributes.firstLine := None;
                Contributes.configuration := Some (js "ignore.json") |}) :: []
  ∧ insertHeader ignore_files_host
      (editing (js "ignore") (js "/repo/build.ignore") (js "out/"))
    = (Uncaught TypeError,
       editing (js "ignore") (js "/repo/build.ignore") (js "out/"))
  ∧ (js ".ignore" ≠ [] →
     scan_extensions ignore_files_host (js "ignore") (js ".ignore")
       (extensions_all ignore_files_host) = Throw TypeError).
Proof.
  split; [reflexivity|]. split; [vm_compute; reflexivity|].
  apply (scan_extensions_without_extensions ignore_files_host (js "ignore")
           (js ".ignore") (extensions_all ignore_files_host) [] []
           {| extensionPath := js "/ext/git";
              languages := Some [
                {| Contributes.id := js "ignore";
                   Contributes.extensions := None;
                   Contributes.firstLine := None;
                   Contributes.configuration := Some (js "ignore.json") |} ] |}
           {| Contributes.id := js "ignore";
              Contributes.extensions := None;
              Contributes.firstLine := None;
              Contributes.configuration := Some (js "ignore.json") |}).
  - reflexivity.
  - constructor.
  - reflexivity.
  - reflexivity.
Defined.

(** ** Loading a configuration: the text of the second parse *)

Lemma split_join (ls : list jsstring) :
  ls ≠ [] → Forall (fun l => LF ∉ l) ls → split LF (join LF ls) = ls.
Proof.
  intros Hne Hall. induction Hall as [|l ls Hl Hls IH]; [done|].
  destruct ls as [|l' ls'].
  - simpl. by apply split_no_sep.
  - change (join LF (l :: l' :: ls'))
      with (l ++ LF :: join LF (l' :: ls')).
    rewrite split_app_sep by done. by rewrite IH.
Qed.

Lemma blank_comment_no_LF (line : jsstring) :
  LF ∉ line → LF ∉ blank_comment line.
Proof.
  intros H. unfold blank_comment. destruct (startsWith _ _); [|done].
  by_decide.
Qed.

(** The second stage of [loadLanguageConfiguration] keeps the lines of the
    file in place: the text it parses has exactly the lines of the file, each
    comment line replaced by a carriage return; and a file without comment
    lines is parsed as it is. *)
Theorem second_parse_text (content : jsstring) :
  let lines := split LF content in
  let text := join LF (blank_comments_loop (length lines) lines) in
  split LF text = List.map blank_comment lines
  ∧ (Forall (fun line => startsWith (trimStart line) (js "//") = false) lines →
     text = content).
Proof.
  cbv zeta. rewrite blank_comments_loop_map. split.
  - apply split_join.
    + pose proof (split_not_nil LF content). by destruct (split LF content).
    + apply List.Forall_forall. intros x Hx.
      apply List.in_map_iff in Hx as (line & <- & Hline).
      apply blank_comment_no_LF. apply (split_lines_no_sep LF content).
      by apply list_elem_of_In.
  - intros Hplain.
    assert (E : List.map blank_comment (split LF content) = split LF content).
    { induction Hplain as [|l ls Hl _ IH]; [done|].
      simpl. unfold blank_comment at 1. by rewrite Hl, IH. }
    rewrite E. apply join_split.
Qed.

(** ** Configuration: the holder *)

Lemma getExtensionConfig_holder_set_witness :
  copyrightInserter_holder
    {| copyrightInserter_license := None;
       copyrightInserter_useLineComment := None;
       copyrightInserter_holder := Some [];
       copyrightInserter_year := Some [] |} = Some []
  ∧ holder (data (getExtensionConfig
      {| copyrightInserter_license := None;
         copyrightInserter_useLineComment := None;
         copyrightInserter_holder := Some [];
         copyrightInserter_year := Some [] |} 2024))
    = (if truthy [] then [] else js "Google LLC").
Proof.
  split; [reflexivity|].
  exact (getExtensionConfig_holder_set
           {| copyrightInserter_license := None;
              copyrightInserter_useLineComment := None;
              copyrightInserter_holder := Some [];
              copyrightInserter_year := Some [] |} 2024 [] eq_refl).
Defined.

(** ** Orchestrator: a language without comment tokens *)

(** For a language whose comment rule names neither a line-comment token
    nor a block comment, the command never finds a header: every run on a
    supported license inserts the license body as plain text, the result of
    [formatString] without prefix and without opening or closing line,
    preceded by a line break exactly when the insertion line equals the
    line count of the document. *)
Theorem insertHeader_without_tokens (host : Host) (w : World)
    (doc : TextDocument) (language : LanguageConfig)
    (cache : gmap jsstring LanguageConfig) (c : CommentRule)
    (template : LicenseTemplate) :
  CopyrightMap
    !! license (getExtensionConfig (configView host) (getFullYear host))
    = Some template →
  activeTextEditor w = Some doc →
  getLanguageConfigById host (cachedLanguageConfigs w)
    (languageId doc) (fileName doc) = (Ok (Some language), cache) →
  comments (vsconfig language) = Some c →
  lineComment_token c = None →
  blockComment c = None →
  hasCopyright host doc (Some c) = Ok false
  ∧ fst (insertHeader host w)
    = Inserted (calculateInsertLineIndex host doc language)
        (if (calculateInsertLineIndex host doc language =? lineCount doc)%nat
         then LF :: formatString
                      (template
                         (holder (data (getExtensionConfig (configView host)
                                          (getFullYear host))))
                         (year (data (getExtensionConfig (configView host)
                                        (getFullYear host)))))
                      [] [] []
         else formatString
                (template
                   (holder (data (getExtensionConfig (configView host)
                                    (getFullYear host))))
                   (year (data (getExtensionConfig (configView host)
                                  (getFullYear host)))))
                [] [] []).
Proof.
  intros Ht Hdoc Hl Hc Hline Hblock.
  assert (Hhas : hasCopyright host doc (Some c) = Ok false)
    by (unfold hasCopyright; by rewrite Hblock, Hline).
  split; [done|]. unfold insertHeader.
  rewrite Ht, Hdoc, Hl, Hc, Hhas. unfold formatHeader.
  rewrite Hc, Hblock, Hline. cbv iota beta.
  assert ((if useLineComment
                (getExtensionConfig (configView host) (getFullYear host))
           then None else @None (jsstring * jsstring)) = None) as ->
    by by destruct (useLineComment _).
  destruct (formatString_ends
              (template
                 (holder (data (getExtensionConfig (configView host)
                                  (getFullYear host))))
                 (year (data (getExtensionConfig (configView host)
                                (getFullYear host)))))
              [] [] []) as [s Hs].
  set (h := formatString _ [] [] []) in *.
  assert (truthy h = true) as -> by (rewrite Hs; by destruct s).
  reflexivity.
Qed.

Lemma insertHeader_without_tokens_witness :
  CopyrightMap
    !! license (getExtensionConfig (configView tokenless_host)
                  (getFullYear tokenless_host))
    = Some apache
  ∧ getLanguageConfigById tokenless_host ∅ (js "plaintext")
      (js "/doc/notes.txt")
    = (Ok (Some {| id := js "plaintext"; firstLine := None;
                   vsconfig := comments_of None None |}),
       snd (getLanguageConfigById tokenless_host ∅ (js "plaintext")
              (js "/doc/notes.txt")))
  ∧ hasCopyright tokenless_host
      {| languageId := js "plaintext"; fileName := js "/doc/notes.txt";
         text := js "Copyright notes" |}
      (Some {| lineComment := None; blockComment := None |}) = Ok false
  ∧ fst (insertHeader tokenless_host
           (editing (js "plaintext") (js "/doc/notes.txt")
              (js "Copyright notes")))
    = Inserted 0
        (formatString (apache (js "Example Corp") (js "2024")) [] [] []).
Proof.
  assert (Ht : CopyrightMap
    !! license (getExtensionConfig (configView tokenless_host)
                  (getFullYear tokenless_host))
    = Some apache) by reflexivity.
  assert (Hl : getLanguageConfigById tokenless_host ∅ (js "plaintext")
      (js "/doc/notes.txt")
    = (Ok (Some {| id := js "plaintext"; firstLine := None;
                   vsconfig := comments_of None None |}),
       snd (getLanguageConfigById tokenless_host ∅ (js "plaintext")
              (js "/doc/notes.txt")))) by (vm_compute; reflexivity).
  split; [exact Ht|]. split; [exact Hl|].
  exact (insertHeader_without_tokens tokenless_host
           (editing (js "plaintext") (js "/doc/notes.txt")
              (js "Copyright notes"))
           {| languageId := js "plaintext"; fileName := js "/doc/notes.txt";
              text := js "Copyright notes" |}
           {| id := js "plaintext"; firstLine := None;
              vsconfig := comments_of None None |}
           (snd (getLanguageConfigById tokenless_host ∅ (js "plaintext")
                   (js "/doc/notes.txt")))
           {| lineComment := None; blockComment := None |}
           apache Ht eq_refl Hl eq_refl eq_refl eq_refl).
Defined.
